(** * DayPlanner: the chat canvas, the task-capture workflow and the
      persisted task list of [src/MainApp.py], as a shallow embedding.

    Python integers are [Z], a raised exception is [None] in the option
    monad.  The text of the conversation is [string], whose characters stand
    for the code points below 256; the persisted record is modelled a second
    time on Python strings as they are, sequences of code points, in the
    module [Unicode], of which the 8-bit codec [Json] is a special case.  The Tk canvas is modelled as
    its display list: items carry the integer handle that [create_window]
    and [create_polygon] return, [move] translates the items with a given
    handle and leaves the canvas untouched when no item has it.

    Three things belong to the platform and not to the repository: the size
    a widget requests once its layout has settled (fonts), the bounding box
    Tk computes for a polygon (outline and join style), and
    [textwrap.fill].  They are the fields of the class [Platform]; every
    definition and theorem is parametric in them. *)

From Stdlib Require Import ZArith List String Ascii Bool Lia.
Import ListNotations.
Open Scope string_scope.
Open Scope list_scope.
Open Scope Z_scope.

(** ** Exceptions as [option] *)

Notation "x <- e ;; k" :=
  (match e with Some x => k | None => None end)
  (at level 61, e at next level, right associativity).
Notation "' p <- e ;; k" :=
  (match e with Some p => k | None => None end)
  (at level 61, p pattern, e at next level, right associativity).

(** ** The Tk canvas *)

Module Tk.

(** A bounding box [(x1, y1, x2, y2)], as [Canvas.bbox] returns it. *)
Definition box : Type := Z * Z * Z * Z.

(** The widgets the program embeds in canvas windows: the grey frame
    that holds a bubble's label, and the exit button. *)
Inductive widget : Type :=
| Frame (text : string)
| Button (text : string).

Inductive item : Type :=
| Window (x y : Z) (w : widget)
| Polygon (coords : list Z).

Class Platform : Type := {
  (** requested width and height of a widget after [update_idletasks] *)
  req_size : widget -> Z * Z;
  (** the bounding box Tk keeps for a polygon with these coordinates *)
  polygon_bbox : list Z -> box;
  (** [textwrap.fill text width] *)
  textwrap_fill : string -> Z -> string
}.

Record canvas : Type := {
  items : list (Z * item);
  next_id : Z;
  scrollregion : option box;
  yview_bottom : bool
}.

Definition new_canvas : canvas :=
  {| items := []; next_id := 1; scrollregion := None; yview_bottom := false |}.

Definition with_items (c : canvas) (its : list (Z * item)) : canvas :=
  {| items := its; next_id := next_id c;
     scrollregion := scrollregion c; yview_bottom := yview_bottom c |}.

(** [create_window] and [create_polygon]: the new item goes on top of
    the display list and gets the next handle. *)
Definition create (c : canvas) (it : item) : canvas * Z :=
  ({| items := items c ++ [(next_id c, it)]; next_id := next_id c + 1;
      scrollregion := scrollregion c; yview_bottom := yview_bottom c |},
   next_id c).

Definition create_window (c : canvas) (x y : Z) (w : widget) : canvas * Z :=
  create c (Window x y w).

Definition create_polygon (c : canvas) (coords : list Z) : canvas * Z :=
  create c (Polygon coords).

Fixpoint lookup (id : Z) (its : list (Z * item)) : option item :=
  match its with
  | [] => None
  | (k, it) :: rest => if k =? id then Some it else lookup id rest
  end.

Definition find (c : canvas) (id : Z) : option item := lookup id (items c).

Fixpoint translate_coords (dx dy : Z) (cs : list Z) : list Z :=
  match cs with
  | x :: y :: rest => (x + dx) :: (y + dy) :: translate_coords dx dy rest
  | _ => cs
  end.

Definition translate (dx dy : Z) (it : item) : item :=
  match it with
  | Window x y w => Window (x + dx) (y + dy) w
  | Polygon cs => Polygon (translate_coords dx dy cs)
  end.

Definition move_in (id dx dy : Z) (its : list (Z * item)) : list (Z * item) :=
  map (fun p => if fst p =? id then (fst p, translate dx dy (snd p)) else p) its.

Definition move (c : canvas) (id dx dy : Z) : canvas :=
  with_items c (move_in id dx dy (items c)).

(** [delete('all')] *)
Definition delete_all (c : canvas) : canvas := with_items c [].

Section Geometry.
Context {P : Platform}.

(** A window item is anchored at its centre; Tk never lets a side be
    shorter than one pixel. *)
Definition window_bbox (x y : Z) (w : widget) : box :=
  let width := if fst (req_size w) <=? 0 then 1 else fst (req_size w) in
  let height := if snd (req_size w) <=? 0 then 1 else snd (req_size w) in
  let x1 := x - Z.quot width 2 in
  let y1 := y - Z.quot height 2 in
  (x1, y1, x1 + width, y1 + height).

Definition item_bbox (it : item) : box :=
  match it with
  | Window x y w => window_bbox x y w
  | Polygon cs => polygon_bbox cs
  end.

Definition box_visible (b : box) : bool :=
  let '(x1, y1, x2, y2) := b in (x1 <? x2) && (y1 <? y2).

Definition box_union (a b : box) : box :=
  let '(a1, a2, a3, a4) := a in
  let '(b1, b2, b3, b4) := b in
  (Z.min a1 b1, Z.min a2 b2, Z.max a3 b3, Z.max a4 b4).

(** The union of the boxes of the items that have one; [None] when
    there is none, which is what [Canvas.bbox] returns then. *)
Fixpoint bbox_of (acc : option box) (its : list item) : option box :=
  match its with
  | [] => acc
  | it :: rest =>
      let b := item_bbox it in
      if box_visible b
      then bbox_of (Some (match acc with
                          | Some a => box_union a b
                          | None => b
                          end)) rest
      else bbox_of acc rest
  end.

(** [bbox(id)] *)
Definition bbox (c : canvas) (id : Z) : option box :=
  bbox_of None (map snd (filter (fun p => fst p =? id) (items c))).

(** [bbox(tk.ALL)] *)
Definition bbox_all (c : canvas) : option box :=
  bbox_of None (map snd (items c)).
End Geometry.

End Tk.

(** ** class ChatBubble *)

Module ChatBubble.
Import Tk.

Definition BUBBLE_PAD_Y : Z := 500.
Definition L_BUBBLE_PAD_X : Z := 90.
Definition R_BUBBLE_PAD_X : Z := 350.

(** The attributes the program reads back: the side, the handle [i] of
    the window item and the handle [bubl_tip] of the stem polygon. *)
Record t : Type := {
  left : bool;
  i : Z;
  bubl_tip : Z
}.

(** The arithmetic of [draw_triangle], on the box it unpacks. *)
Definition triangle (left : bool) (b : box) : list Z :=
  let '(x1, y1, x2, y2) := b in
  if left
  then [x1; y2 - 10; x1 - 15; y2 + 10; x1; y2]
  else [x2; y2 - 10; x2 + 15; y2 + 10; x2; y2].

Section Methods.
Context {P : Platform}.

(** [draw_triangle(self, widget)]: unpacking [None] raises. *)
Definition draw_triangle (parent : canvas) (left : bool) (widget : Z)
  : option (list Z) :=
  b <- bbox parent widget ;;
  Some (triangle left b).

(** [__init__(self, parent, message, left)].  The label is packed in
    the frame and [update_idletasks] settles the layout before the
    box is read. *)
Definition init (parent : canvas) (message : string) (left : bool)
  : option (canvas * t) :=
  let '(parent, i) :=
    if left
    then create_window parent L_BUBBLE_PAD_X BUBBLE_PAD_Y (Frame message)
    else create_window parent R_BUBBLE_PAD_X BUBBLE_PAD_Y (Frame message) in
  pts <- draw_triangle parent left i ;;
  let '(parent, tip) := create_polygon parent pts in
  Some (parent, {| left := left; i := i; bubl_tip := tip |}).
End Methods.

End ChatBubble.

(** ** class ChatCanvas *)

Module ChatCanvas.
Import Tk.

(** A [tk.Canvas] with the list [bubbles] of the bubbles sent so far. *)
Record t : Type := {
  cnv : canvas;
  bubbles : list ChatBubble.t
}.

Definition init : t := {| cnv := new_canvas; bubbles := [] |}.

Definition with_cnv (self : t) (c : canvas) : t :=
  {| cnv := c; bubbles := bubbles self |}.

(** The body of the loop over [self.bubbles]. *)
Definition shift (dy : Z) (c : canvas) (bubble : ChatBubble.t) : canvas :=
  move (move c (ChatBubble.i bubble) 0 dy) (ChatBubble.bubl_tip bubble) 0 dy.

Section Methods.
Context {P : Platform}.

Definition update_scrollregion (self : t) : option t :=
  '(x1, y1, x2, y2) <- bbox_all (cnv self) ;;
  Some (with_cnv self
          {| items := items (cnv self); next_id := next_id (cnv self);
             scrollregion := Some (x1, y1 - 300, x2, y2);
             yview_bottom := true |}).

Definition send_message (self : t) (message : string) (left : bool)
  : option t :=
  let message := textwrap_fill message 20 in
  '(c, temp) <- ChatBubble.init (cnv self) message left ;;
  '(x1, y1, x2, y2) <- bbox c (ChatBubble.i temp) ;;
  let c := fold_left (shift (2 * (y1 - y2))) (bubbles self) c in
  let c := move c (ChatBubble.i temp) 0 (y1 - y2) in
  let c := move c (ChatBubble.bubl_tip temp) 0 (y1 - y2) in
  update_scrollregion {| cnv := c; bubbles := bubbles self ++ [temp] |}.

Definition exit_btn (self : t) : t :=
  with_cnv self
    (fst (create_window (cnv self) (ChatBubble.L_BUBBLE_PAD_X + 100)
            (ChatBubble.BUBBLE_PAD_Y + 100) (Button "Exit Program"))).
End Methods.

End ChatCanvas.

(** ** The persisted record: [json.dump] and [json.load] on lists of strings

    The codec on 8-bit text, which the process below uses: a character of
    a [string] stands for the code point with the same number.  [dump] is
    the default encoder ([ensure_ascii], separator comma-space); [load] is
    a scanner for the documents that are arrays of strings of such
    characters and answers [None] on anything else.  The codec on all of
    Python's strings is [Unicode] below, of which this one is the
    restriction to 8-bit text ([dump_code_points], [load_code_points]). *)

Module Json.

Definition quote : ascii := "034"%char.
Definition backslash : ascii := "092"%char.

Definition hex_digit (n : N) : ascii :=
  if (n <? 10)%N then ascii_of_N (48 + n) else ascii_of_N (87 + n).

Definition escape_char (c : ascii) : string :=
  let n := N_of_ascii c in
  if (n =? 34)%N then String backslash (String quote EmptyString)
  else if (n =? 92)%N then String backslash (String backslash EmptyString)
  else if (n =? 8)%N then String backslash "b"
  else if (n =? 12)%N then String backslash "f"
  else if (n =? 10)%N then String backslash "n"
  else if (n =? 13)%N then String backslash "r"
  else if (n =? 9)%N then String backslash "t"
  else if ((32 <=? n) && (n <=? 126))%N then String c EmptyString
  else String backslash
         (String "u" (String "0" (String "0"
            (String (hex_digit (n / 16)) (String (hex_digit (n mod 16))
               EmptyString))))).

Fixpoint escape (s : string) : string :=
  match s with
  | EmptyString => EmptyString
  | String c rest => append (escape_char c) (escape rest)
  end.

Definition encode_string (s : string) : string :=
  String quote (append (escape s) (String quote EmptyString)).

Fixpoint encode_rest (l : list string) : string :=
  match l with
  | [] => "]"
  | s :: rest => append ", " (append (encode_string s) (encode_rest rest))
  end.

(** [json.dump(task_list, data_file)]: the text written to the file. *)
Definition dump (l : list string) : string :=
  match l with
  | [] => "[]"
  | s :: rest => String "[" (append (encode_string s) (encode_rest rest))
  end.

(** The scanner, one character at a time. *)
Inductive state : Type :=
| Start
| Opened
| InString (done : list string) (cur : string)
| Escaped (done : list string) (cur : string)
| Hex (done : list string) (cur : string) (k : nat) (v : N)
| AfterValue (done : list string)
| AfterComma (done : list string)
| Closed (done : list string).

Definition is_space (n : N) : bool :=
  ((n =? 32) || (n =? 9) || (n =? 10) || (n =? 13))%N.

Definition hex_value (n : N) : option N :=
  if ((48 <=? n) && (n <=? 57))%N then Some (n - 48)%N
  else if ((97 <=? n) && (n <=? 102))%N then Some (n - 87)%N
  else if ((65 <=? n) && (n <=? 70))%N then Some (n - 55)%N
  else None.

Definition snoc (s : string) (c : ascii) : string :=
  append s (String c EmptyString).

Definition step (st : state) (c : ascii) : option state :=
  let n := N_of_ascii c in
  match st with
  | Start =>
      if is_space n then Some Start
      else if (n =? 91)%N then Some Opened
      else None
  | Opened =>
      if is_space n then Some Opened
      else if (n =? 34)%N then Some (InString [] EmptyString)
      else if (n =? 93)%N then Some (Closed [])
      else None
  | InString done cur =>
      if (n =? 34)%N then Some (AfterValue (done ++ [cur]))
      else if (n =? 92)%N then Some (Escaped done cur)
      else if (n <? 32)%N then None
      else Some (InString done (snoc cur c))
  | Escaped done cur =>
      if (n =? 34)%N then Some (InString done (snoc cur quote))
      else if (n =? 92)%N then Some (InString done (snoc cur backslash))
      else if (n =? 47)%N then Some (InString done (snoc cur "/"%char))
      else if (n =? 98)%N then Some (InString done (snoc cur (ascii_of_N 8)))
      else if (n =? 102)%N then Some (InString done (snoc cur (ascii_of_N 12)))
      else if (n =? 110)%N then Some (InString done (snoc cur (ascii_of_N 10)))
      else if (n =? 114)%N then Some (InString done (snoc cur (ascii_of_N 13)))
      else if (n =? 116)%N then Some (InString done (snoc cur (ascii_of_N 9)))
      else if (n =? 117)%N then Some (Hex done cur 0 0%N)
      else None
  | Hex done cur k v =>
      d <- hex_value n ;;
      let v := (16 * v + d)%N in
      match k with
      | 3%nat => if (v <? 256)%N
                 then Some (InString done (snoc cur (ascii_of_N v)))
                 else None
      | _ => Some (Hex done cur (S k) v)
      end
  | AfterValue done =>
      if is_space n then Some (AfterValue done)
      else if (n =? 44)%N then Some (AfterComma done)
      else if (n =? 93)%N then Some (Closed done)
      else None
  | AfterComma done =>
      if is_space n then Some (AfterComma done)
      else if (n =? 34)%N then Some (InString done EmptyString)
      else None
  | Closed done =>
      if is_space n then Some (Closed done) else None
  end.

Fixpoint scan (st : state) (s : string) : option state :=
  match s with
  | EmptyString => Some st
  | String c rest => st' <- step st c ;; scan st' rest
  end.

(** [json.load(data_file)] *)
Definition load (s : string) : option (list string) :=
  match scan Start s with
  | Some (Closed done) => Some done
  | _ => None
  end.

End Json.

(** ** The persisted record on Python strings

    A Python [str] is a sequence of code points below 0x110000, the
    surrogates D800..DFFF included, and so is the text of the file.
    [dump] is [json.dump] with its defaults: the quote, the backslash and
    five control characters have their short escapes, [ensure_ascii] writes
    every other code point outside 0x20..0x7E as a backslash-u escape of
    four lowercase hexadecimal digits, and a code point above FFFF as the
    two escapes of its surrogate pair.  [load] is [json.load] on the documents that are
    arrays of strings: a raw character of a string is any code point from
    0x20 on, and an escaped high surrogate that is followed at once by an
    escaped low surrogate is read as the one code point they encode.
    [None] stands both for the texts [json.load] raises on and for the
    documents that hold anything but an array of strings. *)

Module Unicode.
Local Open Scope N_scope.

Definition str : Type := list N.

Definition code_point (c : N) : Prop := c < 1114112.

Definition text (s : str) : Prop := Forall code_point s.

(** D800..DBFF and DC00..DFFF *)
Definition is_high (c : N) : bool := (55296 <=? c) && (c <=? 56319).
Definition is_low (c : N) : bool := (56320 <=? c) && (c <=? 57343).

(** A high surrogate immediately followed by a low one, as two code
    points of the string. *)
Fixpoint paired (s : str) : bool :=
  match s with
  | [] => false
  | h :: rest =>
      match rest with
      | [] => false
      | l :: _ => (is_high h && is_low l) || paired rest
      end
  end.

Definition hex_digit (d : N) : N := if d <? 10 then 48 + d else 87 + d.

(** backslash, u and four digits *)
Definition escape_u (c : N) : str :=
  [92; 117;
   hex_digit (N.land (N.shiftr c 12) 15);
   hex_digit (N.land (N.shiftr c 8) 15);
   hex_digit (N.land (N.shiftr c 4) 15);
   hex_digit (N.land c 15)].

Definition escape_char (c : N) : str :=
  if c =? 34 then [92; 34]
  else if c =? 92 then [92; 92]
  else if c =? 8 then [92; 98]
  else if c =? 12 then [92; 102]
  else if c =? 10 then [92; 110]
  else if c =? 13 then [92; 114]
  else if c =? 9 then [92; 116]
  else if (32 <=? c) && (c <=? 126) then [c]
  else if c <? 65536 then escape_u c
  else
    let v := c - 65536 in
    escape_u (N.lor 55296 (N.land (N.shiftr v 10) 1023))
      ++ escape_u (N.lor 56320 (N.land v 1023)).

Fixpoint escape (s : str) : str :=
  match s with
  | [] => []
  | c :: rest => escape_char c ++ escape rest
  end.

Definition encode_string (s : str) : str := 34 :: escape s ++ [34].

Fixpoint encode_rest (l : list str) : str :=
  match l with
  | [] => [93]
  | s :: rest => 44 :: 32 :: encode_string s ++ encode_rest rest
  end.

(** [json.dump(task_list, data_file)]: the text written to the file. *)
Definition dump (l : list str) : str :=
  match l with
  | [] => [91; 93]
  | s :: rest => 91 :: encode_string s ++ encode_rest rest
  end.

(** The scanner.  Inside a string [pend] is an escaped high surrogate that
    has been read and not yet appended: what follows decides whether it is
    half of a pair. *)
Inductive state : Type :=
| Start
| Opened
| InString (done : list str) (cur : str) (pend : option N)
| Escaped (done : list str) (cur : str) (pend : option N)
| Hex (done : list str) (cur : str) (pend : option N) (k : nat) (v : N)
| AfterValue (done : list str)
| AfterComma (done : list str)
| Closed (done : list str).

Definition is_space (n : N) : bool :=
  (n =? 32) || (n =? 9) || (n =? 10) || (n =? 13).

Definition hex_value (n : N) : option N :=
  if (48 <=? n) && (n <=? 57) then Some (n - 48)
  else if (97 <=? n) && (n <=? 102) then Some (n - 87)
  else if (65 <=? n) && (n <=? 70) then Some (n - 55)
  else None.

Definition flush (cur : str) (pend : option N) : str :=
  match pend with
  | Some h => cur ++ [h]
  | None => cur
  end.

(** [Py_UNICODE_JOIN_SURROGATES] *)
Definition join (h l : N) : N :=
  N.lor (N.shiftl (N.land h 1023) 10) (N.land l 1023) + 65536.

(** An escape that is not the second half of a pair. *)
Definition single (done : list str) (cur : str) (v : N) : state :=
  if is_high v then InString done cur (Some v)
  else InString done (cur ++ [v]) None.

(** The fourth digit of an escape has been read. *)
Definition finish (done : list str) (cur : str) (pend : option N) (v : N)
  : state :=
  match pend with
  | Some h =>
      if is_low v then InString done (cur ++ [join h v]) None
      else single done (cur ++ [h]) v
  | None => single done cur v
  end.


Definition step (st : state) (n : N) : option state :=
  match st with
  | Start =>
      if is_space n then Some Start
      else if n =? 91 then Some Opened
      else None
  | Opened =>
      if is_space n then Some Opened
      else if n =? 34 then Some (InString [] [] None)
      else if n =? 93 then Some (Closed [])
      else None
  | InString done cur pend =>
      if n =? 34 then Some (AfterValue (done ++ [flush cur pend]))
      else if n =? 92 then Some (Escaped done cur pend)
      else if n <? 32 then None
      else Some (InString done (flush cur pend ++ [n]) None)
  | Escaped done cur pend =>
      if n =? 34 then Some (InString done (flush cur pend ++ [34]) None)
      else if n =? 92 then Some (InString done (flush cur pend ++ [92]) None)
      else if n =? 47 then Some (InString done (flush cur pend ++ [47]) None)
      else if n =? 98 then Some (InString done (flush cur pend ++ [8]) None)
      else if n =? 102 then Some (InString done (flush cur pend ++ [12]) None)
      else if n =? 110 then Some (InString done (flush cur pend ++ [10]) None)
      else if n =? 114 then Some (InString done (flush cur pend ++ [13]) None)
      else if n =? 116 then Some (InString done (flush cur pend ++ [9]) None)
      else if n =? 117 then Some (Hex done cur pend 0 0)
      else None
  | Hex done cur pend k v =>
      d <- hex_value n ;;
      let v := 16 * v + d in
      match k with
      | 3%nat => Some (finish done cur pend v)
      | _ => Some (Hex done cur pend (S k) v)
      end
  | AfterValue done =>
      if is_space n then Some (AfterValue done)
      else if n =? 44 then Some (AfterComma done)
      else if n =? 93 then Some (Closed done)
      else None
  | AfterComma done =>
      if is_space n then Some (AfterComma done)
      else if n =? 34 then Some (InString done [] None)
      else None
  | Closed done =>
      if is_space n then Some (Closed done) else None
  end.

Fixpoint scan (st : state) (s : str) : option state :=
  match s with
  | [] => Some st
  | c :: rest => st' <- step st c ;; scan st' rest
  end.

(** [json.load(data_file)] *)
Definition load (s : str) : option (list str) :=
  match scan Start s with
  | Some (Closed done) => Some done
  | _ => None
  end.

End Unicode.

(** The code points of a [string]. *)
Definition code_points (s : string) : Unicode.str :=
  map N_of_ascii (list_ascii_of_string s).

(** A state of the scanner of 8-bit text, as a state of the scanner of code
    points. *)
Definition lift (st : Json.state) : Unicode.state :=
  match st with
  | Json.Start => Unicode.Start
  | Json.Opened => Unicode.Opened
  | Json.InString done cur =>
      Unicode.InString (map code_points done) (code_points cur) None
  | Json.Escaped done cur =>
      Unicode.Escaped (map code_points done) (code_points cur) None
  | Json.Hex done cur k v =>
      Unicode.Hex (map code_points done) (code_points cur) None k v
  | Json.AfterValue done => Unicode.AfterValue (map code_points done)
  | Json.AfterComma done => Unicode.AfterComma (map code_points done)
  | Json.Closed done => Unicode.Closed (map code_points done)
  end.

(** ** The two windows and the process around them *)

(** What [deiconify] and [withdraw] switch on the root window. *)
Inductive wm_state : Type := Shown | Withdrawn.

Module TaskWindow.
(** [app] tells whether the attribute holds the MainApplication of the
    process (it is [None] on the resume path); [labels] are the texts of
    the packed labels, whose random colours are not modelled. *)
Record t : Type := {
  task_list : list string;
  app : bool;
  labels : list string;
  destroy_bound : bool
}.
End TaskWindow.

Module MainApplication.
Record t : Type := {
  tasks : list string;
  cnv_chat : ChatCanvas.t;
  entry_enabled : bool;
  entry_text : string;
  return_bound : bool
}.
End MainApplication.

(** The state of a run: the two files under [rec/], the root window, and
    the objects alive. *)
Record process : Type := {
  data_json : option string;
  mainbg_png : bool;
  root_wm : wm_state;
  root_alive : bool;
  quit : bool;
  main_app : option MainApplication.t;
  wdw_tasks : option TaskWindow.t
}.

Definition set_data_json (p : process) (f : option string) : process :=
  {| data_json := f; mainbg_png := mainbg_png p; root_wm := root_wm p;
     root_alive := root_alive p; quit := quit p; main_app := main_app p;
     wdw_tasks := wdw_tasks p |}.

Definition set_root_wm (p : process) (s : wm_state) : process :=
  {| data_json := data_json p; mainbg_png := mainbg_png p; root_wm := s;
     root_alive := root_alive p; quit := quit p; main_app := main_app p;
     wdw_tasks := wdw_tasks p |}.

Definition set_main_app (p : process) (a : MainApplication.t) : process :=
  {| data_json := data_json p; mainbg_png := mainbg_png p; root_wm := root_wm p;
     root_alive := root_alive p; quit := quit p; main_app := Some a;
     wdw_tasks := wdw_tasks p |}.

Definition set_wdw_tasks (p : process) (w : option TaskWindow.t) : process :=
  {| data_json := data_json p; mainbg_png := mainbg_png p; root_wm := root_wm p;
     root_alive := root_alive p; quit := quit p; main_app := main_app p;
     wdw_tasks := w |}.

Definition set_entry (a : MainApplication.t) (enabled : bool) (text : string)
    (bound : bool) : MainApplication.t :=
  {| MainApplication.tasks := MainApplication.tasks a;
     MainApplication.cnv_chat := MainApplication.cnv_chat a;
     MainApplication.entry_enabled := enabled;
     MainApplication.entry_text := text;
     MainApplication.return_bound := bound |}.

Definition set_cnv_chat (a : MainApplication.t) (c : ChatCanvas.t)
  : MainApplication.t :=
  {| MainApplication.tasks := MainApplication.tasks a;
     MainApplication.cnv_chat := c;
     MainApplication.entry_enabled := MainApplication.entry_enabled a;
     MainApplication.entry_text := MainApplication.entry_text a;
     MainApplication.return_bound := MainApplication.return_bound a |}.

(** The states of the capture workflow, read off the entry field: the
    handler is bound from construction until the empty line, the field is
    enabled from the greeting until the empty line. *)
Inductive workflow : Type := AWAITING_INPUT | CAPTURING_TASKS | COMPLETE.

Definition workflow_state (a : MainApplication.t) : workflow :=
  if MainApplication.return_bound a
  then if MainApplication.entry_enabled a then CAPTURING_TASKS
       else AWAITING_INPUT
  else COMPLETE.

(** What the user can do while [mainloop] runs. *)
Inductive event : Type :=
| TypeText (s : string)
| PressReturn
| ClickTasksFinished
| ClickExit
| CloseTaskWindow.

Definition is_button (p : Z * Tk.item) : bool :=
  match snd p with
  | Tk.Window _ _ (Tk.Button _) => true
  | _ => false
  end.

Section Program.
Context {P : Tk.Platform}.

(** *** class TaskWindow *)

Definition save_state (p : process) (self : TaskWindow.t) : process :=
  set_data_json p (Some (Json.dump (TaskWindow.task_list self))).

(** [TaskWindow(wdw_root, task_list, app)] *)
Definition TaskWindow_init (p : process) (task_list : list string)
    (app : bool) : process :=
  let self := {| TaskWindow.task_list := task_list;
                 TaskWindow.app := app;
                 TaskWindow.labels := task_list;
                 TaskWindow.destroy_bound := true |} in
  save_state (set_wdw_tasks p (Some self)) self.

Definition kill_root (p : process) (widget_is_self : bool) : process :=
  if widget_is_self && root_alive p
  then {| data_json := data_json p; mainbg_png := mainbg_png p;
          root_wm := root_wm p; root_alive := false; quit := quit p;
          main_app := main_app p; wdw_tasks := wdw_tasks p |}
  else p.

(** *** class MainApplication *)

(** [MainApplication(parent)]: opening the background image raises when
    the file is missing. *)
Definition MainApplication_init (p : process) : option process :=
  if mainbg_png p
  then Some (set_main_app p
               {| MainApplication.tasks := [];
                  MainApplication.cnv_chat := ChatCanvas.init;
                  MainApplication.entry_enabled := false;
                  MainApplication.entry_text := EmptyString;
                  MainApplication.return_bound := true |})
  else None.

Definition gather_info (p : process) : option process :=
  self <- main_app p ;;
  c <- ChatCanvas.send_message (MainApplication.cnv_chat self)
         "Welcome back!" true ;;
  c <- ChatCanvas.send_message c
         "Please enter today's tasks, one at a time, entering in nothing when finished."
         true ;;
  let self := set_cnv_chat self c in
  Some (set_main_app p
          (set_entry self true (MainApplication.entry_text self)
             (MainApplication.return_bound self))).

Definition end_day (p : process) : option process :=
  self <- main_app p ;;
  let p := set_root_wm p Shown in
  let self := set_entry self false (MainApplication.entry_text self)
                (MainApplication.return_bound self) in
  c <- ChatCanvas.send_message (MainApplication.cnv_chat self)
         "Another day, another dollar" true ;;
  c <- ChatCanvas.send_message c "Alright, I'll see ya tomorrow" true ;;
  Some (set_main_app p (set_cnv_chat self (ChatCanvas.exit_btn c))).

Definition exit (p : process) : process :=
  let p := match data_json p with
           | Some _ => set_data_json p None
           | None => p
           end in
  {| data_json := data_json p; mainbg_png := mainbg_png p;
     root_wm := root_wm p; root_alive := root_alive p; quit := true;
     main_app := main_app p; wdw_tasks := wdw_tasks p |}.

Definition refresh_cnv (p : process) : option process :=
  self <- main_app p ;;
  let c := MainApplication.cnv_chat self in
  Some (set_main_app p
          (set_cnv_chat self (ChatCanvas.with_cnv c (Tk.delete_all (ChatCanvas.cnv c))))).

Definition create_list (p : process) : option process :=
  self <- main_app p ;;
  let p := TaskWindow_init p (MainApplication.tasks self) true in
  p <- refresh_cnv p ;;
  Some (set_root_wm p Withdrawn).

Definition input_tasks (p : process) : option process :=
  self <- main_app p ;;
  if (String.length (MainApplication.entry_text self) =? 0)%nat
  then
    p <- create_list p ;;
    self <- main_app p ;;
    Some (set_main_app p
            (set_entry self false (MainApplication.entry_text self) false))
  else
    c <- ChatCanvas.send_message (MainApplication.cnv_chat self)
           (MainApplication.entry_text self) false ;;
    Some (set_main_app p
            {| MainApplication.tasks :=
                 MainApplication.tasks self ++ [MainApplication.entry_text self];
               MainApplication.cnv_chat := c;
               MainApplication.entry_enabled := MainApplication.entry_enabled self;
               MainApplication.entry_text := EmptyString;
               MainApplication.return_bound := MainApplication.return_bound self |}).

(** [TaskWindow.end_tasks], the command of the button Tasks Finished. *)
Definition end_tasks (p : process) : option process :=
  self <- wdw_tasks p ;;
  p <- (if TaskWindow.app self then Some p else MainApplication_init p) ;;
  let self := {| TaskWindow.task_list := TaskWindow.task_list self;
                 TaskWindow.app := true;
                 TaskWindow.labels := TaskWindow.labels self;
                 TaskWindow.destroy_bound := false |} in
  let p := set_wdw_tasks p (Some self) in
  p <- end_day p ;;
  Some (set_wdw_tasks p None).

(** *** The script under [if __name__ == '__main__'] *)

(** [main data_json mainbg_png] runs the script up to [mainloop] on a
    disk where [rec/data.json] holds [data_json] (if it exists at all)
    and [rec/mainbg.png] exists or not. *)
Definition main (data_json : option string) (mainbg_png : bool)
  : option process :=
  let root := {| data_json := data_json; mainbg_png := mainbg_png;
                 root_wm := Shown; root_alive := true; quit := false;
                 main_app := None; wdw_tasks := None |} in
  match data_json with
  | Some data_file =>
      tasks <- Json.load data_file ;;
      let root := set_root_wm root Withdrawn in
      Some (TaskWindow_init root tasks false)
  | None =>
      p <- MainApplication_init root ;;
      gather_info p
  end.

(** *** [mainloop]: the handlers the events reach

    The entry takes keys only while it is enabled; closing the checklist
    from the window manager raises its Destroy event. *)
Definition dispatch (p : process) (e : event) : option process :=
  if quit p || negb (root_alive p) then Some p
  else
    match e with
    | TypeText s =>
        match main_app p with
        | Some self =>
            if MainApplication.entry_enabled self
            then Some (set_main_app p
                         (set_entry self true s
                            (MainApplication.return_bound self)))
            else Some p
        | None => Some p
        end
    | PressReturn =>
        match main_app p with
        | Some self =>
            if MainApplication.entry_enabled self
               && MainApplication.return_bound self
            then input_tasks p
            else Some p
        | None => Some p
        end
    | ClickTasksFinished =>
        match wdw_tasks p with
        | Some _ => end_tasks p
        | None => Some p
        end
    | ClickExit =>
        match main_app p with
        | Some self =>
            if existsb is_button
                 (Tk.items (ChatCanvas.cnv (MainApplication.cnv_chat self)))
            then Some (exit p)
            else Some p
        | None => Some p
        end
    | CloseTaskWindow =>
        match wdw_tasks p with
        | Some self =>
            let p := set_wdw_tasks p None in
            Some (if TaskWindow.destroy_bound self then kill_root p true else p)
        | None => Some p
        end
    end.

Fixpoint mainloop (p : process) (events : list event) : option process :=
  match events with
  | [] => Some p
  | e :: rest => p <- dispatch p e ;; mainloop p rest
  end.

(** The user submits a line: types it in the entry and presses Return. *)
Definition submit (line : string) : list event := [TypeText line; PressReturn].

End Program.

(** ** A concrete platform, to run the program on

    A stand-in for a screen: every line of a label is 17 units high in a
    frame 126 units wide, the button is 90 by 26, a polygon is bounded by
    its extreme coordinates, and text is wrapped greedily at spaces (what
    [textwrap.fill] does on single-spaced text without hyphens whose words
    fit on a line). *)

Module Demo.

Definition newline : ascii := "010"%char.

Fixpoint words (cur : string) (s : string) : list string :=
  match s with
  | EmptyString => [cur]
  | String c rest =>
      if (N_of_ascii c =? 32)%N then cur :: words EmptyString rest
      else words (Json.snoc cur c) rest
  end.

Definition is_empty (s : string) : bool :=
  match s with EmptyString => true | _ => false end.

Fixpoint pack (width : Z) (line : string) (ws : list string) : list string :=
  match ws with
  | [] => if is_empty line then [] else [line]
  | w :: rest =>
      if is_empty line then pack width w rest
      else if Z.of_nat (String.length line) + 1 + Z.of_nat (String.length w)
              <=? width
           then pack width (append line (String " " w)) rest
           else line :: pack width w rest
  end.

Fixpoint join (ls : list string) : string :=
  match ls with
  | [] => EmptyString
  | [l] => l
  | l :: rest => append l (String newline (join rest))
  end.

Definition fill (text : string) (width : Z) : string :=
  join (pack width EmptyString
          (filter (fun w => negb (is_empty w)) (words EmptyString text))).

Fixpoint line_count (s : string) : Z :=
  match s with
  | EmptyString => 1
  | String c rest =>
      if (N_of_ascii c =? 10)%N then 1 + line_count rest else line_count rest
  end.

Fixpoint extent (cs : list Z) : option Tk.box :=
  match cs with
  | x :: y :: rest =>
      match extent rest with
      | Some (x1, y1, x2, y2) =>
          Some (Z.min x x1, Z.min y y1, Z.max x x2, Z.max y y2)
      | None => Some (x, y, x, y)
      end
  | _ => None
  end.

Definition platform : Tk.Platform :=
  {| Tk.req_size w :=
       match w with
       | Tk.Frame text => (126, 17 * line_count text + 4)
       | Tk.Button _ => (90, 26)
       end;
     Tk.polygon_bbox cs :=
       match extent cs with
       | Some b => b
       | None => (0, 0, 0, 0)
       end;
     Tk.textwrap_fill := fill |}.

(** A fresh session on a disk without [rec/data.json], followed by the
    given events. *)
Definition session (events : list event) : option process :=
  p <- main (P := platform) None true ;;
  mainloop (P := platform) p events.

(** An application that waits for lines on an empty canvas. *)
Definition listening : MainApplication.t :=
  {| MainApplication.tasks := [];
     MainApplication.cnv_chat := ChatCanvas.init;
     MainApplication.entry_enabled := true;
     MainApplication.entry_text := EmptyString;
     MainApplication.return_bound := true |}.

Definition greeted : process :=
  {| data_json := None; mainbg_png := true; root_wm := Shown;
     root_alive := true; quit := false; main_app := Some listening;
     wdw_tasks := None |}.

(** A process whose checklist shows one task over a live application. *)
Definition finished : MainApplication.t :=
  {| MainApplication.tasks := ["Buy milk"];
     MainApplication.cnv_chat := ChatCanvas.init;
     MainApplication.entry_enabled := false;
     MainApplication.entry_text := EmptyString;
     MainApplication.return_bound := false |}.

Definition checklist : TaskWindow.t :=
  {| TaskWindow.task_list := ["Buy milk"];
     TaskWindow.app := true;
     TaskWindow.labels := ["Buy milk"];
     TaskWindow.destroy_bound := true |}.

Definition checking : process :=
  {| data_json := Some (Json.dump ["Buy milk"]); mainbg_png := true;
     root_wm := Withdrawn; root_alive := true; quit := false;
     main_app := Some finished; wdw_tasks := Some checklist |}.

(** A process resumed from a file that holds one task. *)
Definition reopened : TaskWindow.t :=
  {| TaskWindow.task_list := ["Buy milk"];
     TaskWindow.app := false;
     TaskWindow.labels := ["Buy milk"];
     TaskWindow.destroy_bound := true |}.

Definition resumed : process :=
  {| data_json := Some (Json.dump ["Buy milk"]); mainbg_png := true;
     root_wm := Withdrawn; root_alive := true; quit := false;
     main_app := None; wdw_tasks := Some reopened |}.


(** A process that shows the exit button while the file is still there. *)
Definition parting : MainApplication.t :=
  {| MainApplication.tasks := ["Buy milk"];
     MainApplication.cnv_chat := ChatCanvas.exit_btn ChatCanvas.init;
     MainApplication.entry_enabled := false;
     MainApplication.entry_text := EmptyString;
     MainApplication.return_bound := false |}.

Definition leaving : process :=
  {| data_json := Some (Json.dump ["Buy milk"]); mainbg_png := true;
     root_wm := Shown; root_alive := true; quit := false;
     main_app := Some parting; wdw_tasks := None |}.

End Demo.

(** ** Vocabulary of the statements *)

(** The handles a list of bubbles refers to. *)
Definition bubble_ids (bs : list ChatBubble.t) : list Z :=
  flat_map (fun b => [ChatBubble.i b; ChatBubble.bubl_tip b]) bs.

(** The display list after the loop of [send_message] over [bs]. *)
Definition shift_all (dy : Z) (bs : list ChatBubble.t)
    (its : list (Z * Tk.item)) : list (Z * Tk.item) :=
  fold_left
    (fun its b =>
       Tk.move_in (ChatBubble.bubl_tip b) 0 dy
         (Tk.move_in (ChatBubble.i b) 0 dy its))
    bs its.

(** Handles are handed out in increasing order: those in use are below
    the next one. *)
Definition fresh (self : ChatCanvas.t) : Prop :=
  Forall (fun p => fst p < Tk.next_id (ChatCanvas.cnv self))
    (Tk.items (ChatCanvas.cnv self))
  /\ Forall (fun id => id < Tk.next_id (ChatCanvas.cnv self))
       (bubble_ids (ChatCanvas.bubbles self)).

(** Every bubble of the list is on the canvas, body and stem, and no
    handle occurs twice. *)
Definition live (self : ChatCanvas.t) : Prop :=
  NoDup (bubble_ids (ChatCanvas.bubbles self))
  /\ Forall
       (fun id => exists it, Tk.find (ChatCanvas.cnv self) id = Some it)
       (bubble_ids (ChatCanvas.bubbles self)).

(** The height of the box of a bubble that shows [text]. *)
Definition frame_height {P : Tk.Platform} (text : string) : Z :=
  let h := snd (Tk.req_size (Tk.Frame text)) in
  if h <=? 0 then 1 else h.

Definition pad_x (left : bool) : Z :=
  if left then ChatBubble.L_BUBBLE_PAD_X else ChatBubble.R_BUBBLE_PAD_X.

(** A run of [send_message] calls on one canvas. *)
Fixpoint send_all {P : Tk.Platform} (self : ChatCanvas.t)
    (msgs : list (string * bool)) : option ChatCanvas.t :=
  match msgs with
  | [] => Some self
  | m :: rest =>
      self <- ChatCanvas.send_message self (fst m) (snd m) ;;
      send_all self rest
  end.

(** The text a window item shows when it holds a bubble's frame. *)
Definition frame_text (o : option Tk.item) : option string :=
  match o with
  | Some (Tk.Window _ _ (Tk.Frame text)) => Some text
  | _ => None
  end.

(** The conversation as the list of bubbles records it: the side of
    every bubble and the text its frame shows on the canvas, if it is
    still there. *)
Definition transcript (self : ChatCanvas.t) : list (bool * option string) :=
  map (fun b =>
         (ChatBubble.left b,
          frame_text (Tk.find (ChatCanvas.cnv self) (ChatBubble.i b))))
    (ChatCanvas.bubbles self).

Definition capturing (p : process) (self : MainApplication.t) : Prop :=
  main_app p = Some self
  /\ workflow_state self = CAPTURING_TASKS
  /\ quit p = false
  /\ root_alive p = true.

(** How Tk reads a flat coordinate list: consecutive pairs are points. *)
Fixpoint points (cs : list Z) : list (Z * Z) :=
  match cs with
  | x :: y :: rest => (x, y) :: points rest
  | _ => []
  end.

(** The checklist is open and its [app] attribute is the MainApplication
    of the process, whose [mainloop] is running. *)
Definition checklist_open (p : process) (self : MainApplication.t)
    (window : TaskWindow.t) : Prop :=
  main_app p = Some self
  /\ wdw_tasks p = Some window
  /\ TaskWindow.app window = true
  /\ quit p = false
  /\ root_alive p = true.

Definition is_completion (e : event) : bool :=
  match e with
  | ClickTasksFinished => true
  | _ => false
  end.

(** ** Vocabulary of the further statements *)

(** What the canvas holds under the body handle of every bubble. *)
Definition bodies (self : ChatCanvas.t) : list (option Tk.item) :=
  map (fun b => Tk.find (ChatCanvas.cnv self) (ChatBubble.i b))
    (ChatCanvas.bubbles self).

(** The heights of the bubbles a list of messages gives, added up. *)
Fixpoint total_height {P : Tk.Platform} (msgs : list (string * bool)) : Z :=
  match msgs with
  | [] => 0
  | m :: rest => frame_height (Tk.textwrap_fill (fst m) 20) + total_height rest
  end.

(** Where a run of messages leaves its bubbles: each one at the baseline
    minus its height, minus twice the heights of all that follow. *)
Fixpoint layout {P : Tk.Platform} (msgs : list (string * bool))
  : list (option Tk.item) :=
  match msgs with
  | [] => []
  | m :: rest =>
      Some (Tk.Window (pad_x (snd m))
              (ChatBubble.BUBBLE_PAD_Y
               - frame_height (Tk.textwrap_fill (fst m) 20)
               - 2 * total_height rest)
              (Tk.Frame (Tk.textwrap_fill (fst m) 20)))
      :: layout rest
  end.

Definition box_within (a u : Tk.box) : Prop :=
  let '(a1, a2, a3, a4) := a in
  let '(u1, u2, u3, u4) := u in
  u1 <= a1 /\ u2 <= a2 /\ a3 <= u3 /\ a4 <= u4.

(** The stem of every bubble is the triangle of the box of its body. *)
Definition flush {P : Tk.Platform} (self : ChatCanvas.t) : Prop :=
  Forall
    (fun b =>
       exists x y w,
         Tk.find (ChatCanvas.cnv self) (ChatBubble.i b) = Some (Tk.Window x y w)
         /\ Tk.find (ChatCanvas.cnv self) (ChatBubble.bubl_tip b)
            = Some (Tk.Polygon
                      (ChatBubble.triangle (ChatBubble.left b)
                         (Tk.window_bbox x y w))))
    (ChatCanvas.bubbles self).

(** The lower and the upper edge of the box of a window item. *)
Definition bottom_edge {P : Tk.Platform} (it : Tk.item) : option Z :=
  match it with
  | Tk.Window x y w => let '(_, _, _, y2) := Tk.window_bbox x y w in Some y2
  | Tk.Polygon _ => None
  end.

Definition top_edge {P : Tk.Platform} (it : Tk.item) : option Z :=
  match it with
  | Tk.Window x y w => let '(_, y1, _, _) := Tk.window_bbox x y w in Some y1
  | Tk.Polygon _ => None
  end.

(** *** [TaskWindow.rand_color]

    The three calls of [random.randint(0, 255)] are the arguments, in the
    order the tuple evaluates them; [format_02X] is the conversion %02X on
    a number of that range. *)
Definition hex_upper (n : Z) : ascii :=
  if n <? 10 then ascii_of_N (Z.to_N (48 + n)) else ascii_of_N (Z.to_N (55 + n)).

Definition format_02X (n : Z) : string :=
  String (hex_upper (n / 16)) (String (hex_upper (n mod 16)) EmptyString).

Definition rand_color (r g b : Z) : string :=
  String "#" (append (format_02X r) (append (format_02X g) (format_02X b))).

(** Reading a colour of the form #RRGGBB, as Tk does. *)
Definition hex_pair (hi lo : ascii) : option Z :=
  match Json.hex_value (N_of_ascii hi), Json.hex_value (N_of_ascii lo) with
  | Some a, Some b => Some (Z.of_N (16 * a + b))
  | _, _ => None
  end.

Definition parse_color (s : string) : option (Z * Z * Z) :=
  match s with
  | String "#" (String r1 (String r2 (String g1 (String g2
      (String b1 (String b2 EmptyString)))))) =>
      r <- hex_pair r1 r2 ;;
      g <- hex_pair g1 g2 ;;
      b <- hex_pair b1 b2 ;;
      Some (r, g, b)
  | _ => None
  end.

Definition is_upper_hex (c : ascii) : bool :=
  let n := N_of_ascii c in
  (((48 <=? n) && (n <=? 57)) || ((65 <=? n) && (n <=? 70)))%N.

Definition byte_range (n : Z) : Prop := 0 <= n < 256.

(** *** The process *)

Fixpoint all_chars (f : ascii -> bool) (s : string) : bool :=
  match s with
  | EmptyString => true
  | String c rest => f c && all_chars f rest
  end.

Definition has_button (self : MainApplication.t) : bool :=
  existsb is_button
    (Tk.items (ChatCanvas.cnv (MainApplication.cnv_chat self))).

(** While a checklist is open the file holds its list, and no exit
    button is on the canvas. *)
Definition synced (p : process) : Prop :=
  forall w, wdw_tasks p = Some w ->
    data_json p = Some (Json.dump (TaskWindow.task_list w))
    /\ forall self, main_app p = Some self -> has_button self = false.

(** The entry is disabled and an open checklist, if any, belongs to the
    application. *)
Definition settled (p : process) (self : MainApplication.t) : Prop :=
  main_app p = Some self
  /\ MainApplication.entry_enabled self = false
  /\ forall w, wdw_tasks p = Some w -> TaskWindow.app w = true.

(** [mainloop] has returned: the root window was destroyed or [quit]
    was called. *)
Definition stopped (p : process) : Prop :=
  quit p = true \/ root_alive p = false.

(** Tkinter reports an exception raised in a callback and [mainloop] goes
    on with the next event.  The one handler that raises here is
    [end_tasks] of a resumed checklist when the background image cannot be
    opened, and it raises before it has changed anything the process
    records. *)
Definition handle {P : Tk.Platform} (p : process) (e : event) : process :=
  match dispatch p e with
  | Some p' => p'
  | None => p
  end.

Definition run {P : Tk.Platform} (p : process) (events : list event)
  : process :=
  fold_left handle events p.

(** Some window item is on the display list. *)
Definition has_window (its : list (Z * Tk.item)) : Prop :=
  exists x y w, In (Tk.Window x y w) (map snd its).

(** The display list [send_message] leaves when [b0] is the box the
    canvas reports for the new window: the older bubbles moved by twice
    its height, the new body and stem by its height. *)
Definition sent_items {P : Tk.Platform} (self : ChatCanvas.t)
    (message : string) (left : bool) (b0 : Tk.box) : list (Z * Tk.item) :=
  let dy := let '(_, y1, _, y2) := b0 in y1 - y2 in
  Tk.move_in (Tk.next_id (ChatCanvas.cnv self) + 1) 0 dy
    (Tk.move_in (Tk.next_id (ChatCanvas.cnv self)) 0 dy
       (shift_all (2 * dy) (ChatCanvas.bubbles self)
          (Tk.items (ChatCanvas.cnv self)
           ++ [(Tk.next_id (ChatCanvas.cnv self),
                Tk.Window (pad_x left) ChatBubble.BUBBLE_PAD_Y
                  (Tk.Frame (Tk.textwrap_fill message 20)));
               (Tk.next_id (ChatCanvas.cnv self) + 1,
                Tk.Polygon (ChatBubble.triangle left b0))]))).

(** No task of the application is the empty string. *)
Definition no_empty_task (p : process) : Prop :=
  forall self, main_app p = Some self ->
    Forall (fun task => task <> EmptyString) (MainApplication.tasks self).

(** * Properties *)

(** ** The display list *)

Section CanvasFacts.
Context {P : Tk.Platform}.
Import Tk.

Lemma move_in_app id dx dy a b :
  move_in id dx dy (a ++ b) = move_in id dx dy a ++ move_in id dx dy b.
Proof. apply map_app. Qed.

Lemma move_in_other id dx dy its :
  Forall (fun p => fst p <> id) its -> move_in id dx dy its = its.
Proof.
  induction 1 as [|p its Hp _ IH]; simpl; [reflexivity|].
  rewrite IH. destruct (Z.eqb_spec (fst p) id); congruence.
Qed.

Lemma move_in_ids id dx dy its :
  map fst (move_in id dx dy its) = map fst its.
Proof.
  induction its as [|p its IH]; simpl; [reflexivity|].
  rewrite IH. destruct (fst p =? id); reflexivity.
Qed.

Lemma shift_all_app dy bs a b :
  shift_all dy bs (a ++ b) = shift_all dy bs a ++ shift_all dy bs b.
Proof.
  revert a b; induction bs as [|x bs IH]; intros; simpl; [reflexivity|].
  rewrite !move_in_app. apply IH.
Qed.

Lemma shift_all_ids dy bs its :
  map fst (shift_all dy bs its) = map fst its.
Proof.
  revert its; induction bs as [|x bs IH]; intros; simpl; [reflexivity|].
  rewrite IH, !move_in_ids. reflexivity.
Qed.

Lemma shift_all_other dy bs its :
  (forall p id, In p its -> In id (bubble_ids bs) -> fst p <> id) ->
  shift_all dy bs its = its.
Proof.
  revert its; induction bs as [|x bs IH]; intros its H; simpl; [reflexivity|].
  rewrite !move_in_other.
  - apply IH. intros p id Hp Hid. apply H; [assumption|].
    simpl. right; right; assumption.
  - apply Forall_forall. intros p Hp. apply H; [assumption|]. simpl; auto.
  - rewrite move_in_other; apply Forall_forall; intros p Hp;
      apply H; simpl; auto.
Qed.

Lemma fold_shift_items dy bs c :
  items (fold_left (ChatCanvas.shift dy) bs c) = shift_all dy bs (items c).
Proof.
  revert c; induction bs as [|x bs IH]; intros; simpl; [reflexivity|].
  rewrite IH. reflexivity.
Qed.

Lemma fold_shift_rest dy bs c :
  next_id (fold_left (ChatCanvas.shift dy) bs c) = next_id c
  /\ scrollregion (fold_left (ChatCanvas.shift dy) bs c) = scrollregion c
  /\ yview_bottom (fold_left (ChatCanvas.shift dy) bs c) = yview_bottom c.
Proof.
  revert c; induction bs as [|x bs IH]; intros; simpl; [auto|].
  destruct (IH (ChatCanvas.shift dy c x)) as (-> & -> & ->). auto.
Qed.

(** *** Bounding boxes *)

Lemma window_visible x y w : box_visible (window_bbox x y w) = true.
Proof.
  unfold window_bbox, box_visible.
  destruct (fst (req_size w) <=? 0) eqn:Hw, (snd (req_size w) <=? 0) eqn:Hh;
    apply andb_true_iff; split; apply Z.ltb_lt;
    try apply Z.leb_gt in Hw; try apply Z.leb_gt in Hh; lia.
Qed.

Lemma window_bbox_height x y text :
  let '(x1, y1, x2, y2) := window_bbox x y (Frame text) in
  y2 - y1 = frame_height text.
Proof.
  unfold window_bbox, frame_height. simpl.
  destruct (snd (req_size (Frame text)) <=? 0); lia.
Qed.

Lemma bbox_of_some a its : exists b, bbox_of (Some a) its = Some b.
Proof.
  revert a; induction its as [|it its IH]; intros; simpl; [eauto|].
  destruct (box_visible (item_bbox it)); apply IH.
Qed.

Lemma bbox_of_visible acc its it :
  In it its -> box_visible (item_bbox it) = true ->
  exists b, bbox_of acc its = Some b.
Proof.
  revert acc; induction its as [|k its IH]; intros acc Hin Hv; [contradiction|].
  simpl. destruct Hin as [->|Hin].
  - rewrite Hv. apply bbox_of_some.
  - destruct (box_visible (item_bbox k)); eauto.
Qed.

Lemma filter_fresh n (its : list (Z * item)) :
  Forall (fun p => fst p < n) its ->
  filter (fun p => fst p =? n) its = [].
Proof.
  induction 1 as [|p its Hp _ IH]; simpl; [reflexivity|].
  destruct (Z.eqb_spec (fst p) n); [lia|assumption].
Qed.

End CanvasFacts.

(** ** What one [send_message] does *)

Section SendMessage.
Context {P : Tk.Platform}.
Import Tk.

(** The new bubble before the canvas repositions it. *)
Lemma init_spec (parent : canvas) (message : string) (left : bool) :
  Forall (fun p => fst p < next_id parent) (items parent) ->
  ChatBubble.init parent message left
  = Some ({| items := items parent
               ++ [(next_id parent,
                    Window (pad_x left) ChatBubble.BUBBLE_PAD_Y (Frame message));
                   (next_id parent + 1,
                    Polygon (ChatBubble.triangle left
                               (window_bbox (pad_x left) ChatBubble.BUBBLE_PAD_Y
                                  (Frame message))))];
             next_id := next_id parent + 2;
             scrollregion := scrollregion parent;
             yview_bottom := yview_bottom parent |},
          {| ChatBubble.left := left;
             ChatBubble.i := next_id parent;
             ChatBubble.bubl_tip := next_id parent + 1 |}).
Proof.
  intros Hfresh.
  assert (Hbox : forall x,
             bbox (fst (create_window parent x ChatBubble.BUBBLE_PAD_Y (Frame message)))
               (next_id parent)
             = Some (window_bbox x ChatBubble.BUBBLE_PAD_Y (Frame message))).
  { intros x. unfold bbox, create_window, create. simpl.
    rewrite filter_app, (filter_fresh _ _ Hfresh).
    cbn [filter fst app]. rewrite Z.eqb_refl.
    cbn [map snd bbox_of item_bbox]. rewrite window_visible. reflexivity. }
  unfold ChatBubble.init, ChatBubble.draw_triangle, pad_x.
  destruct left.
  - specialize (Hbox ChatBubble.L_BUBBLE_PAD_X).
    unfold create_window, create in *. simpl in *. rewrite Hbox.
    unfold create_polygon, create. simpl.
    rewrite <- app_assoc. simpl.
    replace (next_id parent + 1 + 1) with (next_id parent + 2) by lia.
    reflexivity.
  - specialize (Hbox ChatBubble.R_BUBBLE_PAD_X).
    unfold create_window, create in *. simpl in *. rewrite Hbox.
    unfold create_polygon, create. simpl.
    rewrite <- app_assoc. simpl.
    replace (next_id parent + 1 + 1) with (next_id parent + 2) by lia.
    reflexivity.
Qed.

Lemma bbox_window its n x y w tail nid sr yv :
  Forall (fun p => fst p < n) its ->
  Forall (fun p => fst p <> n) tail ->
  bbox {| items := its ++ (n, Window x y w) :: tail; next_id := nid;
          scrollregion := sr; yview_bottom := yv |} n
  = Some (window_bbox x y w).
Proof.
  intros Hits Htail. unfold bbox. cbn [items].
  rewrite filter_app, (filter_fresh _ _ Hits).
  cbn [filter fst app]. rewrite Z.eqb_refl.
  replace (filter (fun p => fst p =? n) tail) with (@nil (Z * item)).
  - cbn [map snd bbox_of item_bbox]. rewrite window_visible. reflexivity.
  - symmetry. induction Htail as [|p tail Hp _ IH]; simpl; [reflexivity|].
    destruct (Z.eqb_spec (fst p) n); [contradiction|assumption].
Qed.

Lemma shifted_below dy bs its n :
  Forall (fun p => fst p < n) its ->
  Forall (fun p => fst p < n) (shift_all dy bs its).
Proof.
  intros H.
  apply (Forall_map fst (fun k => k < n)).
  rewrite shift_all_ids. apply Forall_map. exact H.
Qed.

Lemma update_scrollregion_spec its nid sr yv bs x y w :
  In (Window x y w) (map snd its) ->
  exists region,
    ChatCanvas.update_scrollregion
      {| ChatCanvas.cnv := {| items := its; next_id := nid;
                              scrollregion := sr; yview_bottom := yv |};
         ChatCanvas.bubbles := bs |}
    = Some {| ChatCanvas.cnv := {| items := its; next_id := nid;
                                   scrollregion := Some region;
                                   yview_bottom := true |};
              ChatCanvas.bubbles := bs |}.
Proof.
  intros Hin. unfold ChatCanvas.update_scrollregion, bbox_all.
  cbn [ChatCanvas.cnv items next_id].
  destruct (bbox_of_visible None _ _ Hin (window_visible x y w))
    as [[[[x1 y1] x2] y2] ->].
  eexists. reflexivity.
Qed.

Lemma send_message_spec (self : ChatCanvas.t) (message : string) (left : bool) :
  fresh self ->
  let text := textwrap_fill message 20 in
  let n := next_id (ChatCanvas.cnv self) in
  let h := frame_height text in
  exists region,
    ChatCanvas.send_message self message left
    = Some
        {| ChatCanvas.cnv :=
             {| items :=
                  shift_all (- (2 * h)) (ChatCanvas.bubbles self)
                    (items (ChatCanvas.cnv self))
                  ++ [(n, Window (pad_x left) (ChatBubble.BUBBLE_PAD_Y - h)
                            (Frame text));
                      (n + 1,
                       Polygon (translate_coords 0 (- h)
                                  (ChatBubble.triangle left
                                     (window_bbox (pad_x left)
                                        ChatBubble.BUBBLE_PAD_Y (Frame text)))))];
                next_id := n + 2;
                scrollregion := Some region;
                yview_bottom := true |};
           ChatCanvas.bubbles :=
             ChatCanvas.bubbles self
             ++ [{| ChatBubble.left := left;
                    ChatBubble.i := n;
                    ChatBubble.bubl_tip := n + 1 |}] |}.
Proof.
  intros [Hitems Hbubbles] text n h.
  unfold ChatCanvas.send_message. fold text.
  rewrite init_spec by exact Hitems. fold n.
  cbn [ChatBubble.i ChatBubble.bubl_tip].
  rewrite bbox_window;
    [|exact Hitems|repeat constructor; simpl; lia].
  pose proof (window_bbox_height (pad_x left) ChatBubble.BUBBLE_PAD_Y text) as Hh.
  fold h in Hh.
  set (tri := ChatBubble.triangle left _).
  destruct (window_bbox (pad_x left) ChatBubble.BUBBLE_PAD_Y (Frame text))
    as [[[x1 y1] x2] y2].
  replace (2 * (y1 - y2)) with (- (2 * h)) by lia.
  replace (y1 - y2) with (- h) by lia.
  unfold move, with_items. cbn [items next_id scrollregion yview_bottom].
  rewrite fold_shift_items.
  destruct (fold_shift_rest (- (2 * h)) (ChatCanvas.bubbles self)
              {| items := items (ChatCanvas.cnv self)
                   ++ [(n, Window (pad_x left) ChatBubble.BUBBLE_PAD_Y (Frame text));
                       (n + 1, Polygon tri)];
                 next_id := n + 2;
                 scrollregion := scrollregion (ChatCanvas.cnv self);
                 yview_bottom := yview_bottom (ChatCanvas.cnv self) |})
    as (-> & -> & ->).
  cbn [items next_id scrollregion yview_bottom].
  assert (Hnew : shift_all (- (2 * h)) (ChatCanvas.bubbles self)
                   [(n, Window (pad_x left) ChatBubble.BUBBLE_PAD_Y (Frame text));
                    (n + 1, Polygon tri)]
                 = [(n, Window (pad_x left) ChatBubble.BUBBLE_PAD_Y (Frame text));
                    (n + 1, Polygon tri)]).
  { apply shift_all_other. intros p id Hp Hid.
    rewrite Forall_forall in Hbubbles. apply Hbubbles in Hid. fold n in Hid.
    destruct Hp as [<-|[<-|[]]]; simpl; lia. }
  rewrite shift_all_app, Hnew, !move_in_app.
  pose proof (shifted_below (- (2 * h)) (ChatCanvas.bubbles self) _ _ Hitems) as Hold.
  fold n in Hold.
  rewrite (move_in_other n 0 (- h)
             (shift_all (- (2 * h)) (ChatCanvas.bubbles self)
                (items (ChatCanvas.cnv self))))
    by (eapply Forall_impl; [|exact Hold]; simpl; intros; lia).
  rewrite (move_in_other (n + 1) 0 (- h)
             (shift_all (- (2 * h)) (ChatCanvas.bubbles self)
                (items (ChatCanvas.cnv self))))
    by (eapply Forall_impl; [|exact Hold]; simpl; intros; lia).
  unfold move_in at 1 2. cbn [map fst snd].
  rewrite Z.eqb_refl.
  replace (n + 1 =? n) with false by (symmetry; apply Z.eqb_neq; lia).
  cbn [fst snd]. rewrite Z.eqb_refl.
  replace (n =? n + 1) with false by (symmetry; apply Z.eqb_neq; lia).
  cbn [translate].
  replace (pad_x left + 0) with (pad_x left) by lia.
  replace (ChatBubble.BUBBLE_PAD_Y + - h) with (ChatBubble.BUBBLE_PAD_Y - h) by lia.
  eapply update_scrollregion_spec.
  rewrite map_app. apply in_or_app. right. simpl. left. reflexivity.
Qed.

End SendMessage.

(** ** Handles and lookups *)

Section Lookups.
Context {P : Tk.Platform}.
Import Tk.

Lemma lookup_app id a b :
  lookup id (a ++ b)
  = match lookup id a with Some it => Some it | None => lookup id b end.
Proof.
  induction a as [|[k it] a IH]; simpl; [reflexivity|].
  destruct (k =? id); [reflexivity|exact IH].
Qed.

Lemma lookup_below id n its :
  Forall (fun p => fst p < n) its -> n <= id -> lookup id its = None.
Proof.
  induction 1 as [|[k it] its Hk _ IH]; intros Hid; simpl; [reflexivity|].
  simpl in Hk. destruct (Z.eqb_spec k id); [lia|auto].
Qed.

Lemma lookup_move_in id id' dx dy its :
  lookup id (move_in id' dx dy its)
  = if id' =? id then option_map (translate dx dy) (lookup id its)
    else lookup id its.
Proof.
  induction its as [|[k it] its IH]; simpl.
  - destruct (id' =? id); reflexivity.
  - destruct (Z.eqb_spec k id'), (Z.eqb_spec k id), (Z.eqb_spec id' id);
      simpl; try congruence;
      try (destruct (Z.eqb_spec k id); try congruence);
      rewrite ?IH;
      try (destruct (Z.eqb_spec id' id); congruence).
Qed.

Lemma lookup_shift_all_out id dy bs its :
  ~ In id (bubble_ids bs) ->
  lookup id (shift_all dy bs its) = lookup id its.
Proof.
  revert its; induction bs as [|b bs IH]; intros its Hout; simpl; [reflexivity|].
  simpl in Hout. rewrite IH by tauto.
  rewrite !lookup_move_in.
  destruct (Z.eqb_spec (ChatBubble.bubl_tip b) id); [tauto|].
  destruct (Z.eqb_spec (ChatBubble.i b) id); [tauto|reflexivity].
Qed.

Lemma lookup_shift_all_in id dy bs its :
  NoDup (bubble_ids bs) -> In id (bubble_ids bs) ->
  lookup id (shift_all dy bs its)
  = option_map (translate 0 dy) (lookup id its).
Proof.
  revert its; induction bs as [|b bs IH]; intros its Hnd Hin; [contradiction|].
  simpl in Hnd, Hin |- *.
  apply NoDup_cons_iff in Hnd. destruct Hnd as [Hi Hnd].
  apply NoDup_cons_iff in Hnd. destruct Hnd as [Htip Hnd].
  simpl in Hi.
  destruct Hin as [<-|[<-|Hin]].
  - rewrite lookup_shift_all_out by tauto.
    rewrite !lookup_move_in, Z.eqb_refl.
    destruct (Z.eqb_spec (ChatBubble.bubl_tip b) (ChatBubble.i b)); [|reflexivity].
    exfalso. apply Hi. left. congruence.
  - rewrite lookup_shift_all_out by tauto.
    rewrite !lookup_move_in, Z.eqb_refl.
    destruct (Z.eqb_spec (ChatBubble.i b) (ChatBubble.bubl_tip b)); [|reflexivity].
    exfalso. apply Hi. left. congruence.
  - rewrite IH by assumption.
    rewrite !lookup_move_in.
    destruct (Z.eqb_spec (ChatBubble.bubl_tip b) id); [congruence|].
    destruct (Z.eqb_spec (ChatBubble.i b) id); [|reflexivity].
    exfalso. apply Hi. right. congruence.
Qed.

Lemma bubble_ids_app a b : bubble_ids (a ++ b) = bubble_ids a ++ bubble_ids b.
Proof. apply flat_map_app. Qed.

End Lookups.

(** ** The layout after a send *)

Section Layout.
Context {P : Tk.Platform}.
Import Tk.

Lemma frame_height_pos text : 0 < frame_height text.
Proof.
  unfold frame_height.
  destruct (snd (req_size (Frame text)) <=? 0) eqn:H; [lia|].
  apply Z.leb_gt in H. exact H.
Qed.

Lemma fresh_init : fresh ChatCanvas.init.
Proof. split; constructor. Qed.

Lemma live_init : live ChatCanvas.init.
Proof. split; constructor. Qed.

Lemma send_message_fresh self message left after :
  fresh self ->
  ChatCanvas.send_message self message left = Some after ->
  fresh after.
Proof.
  intros Hf Hs.
  destruct (send_message_spec self message left Hf) as [region Heq].
  rewrite Heq in Hs. injection Hs as <-.
  destruct Hf as [Hitems Hbubbles].
  split; cbn [ChatCanvas.cnv ChatCanvas.bubbles items next_id].
  - apply Forall_app. split.
    + eapply Forall_impl; [|apply shifted_below; exact Hitems].
      simpl; intros; lia.
    + repeat constructor; simpl; lia.
  - rewrite bubble_ids_app. apply Forall_app. split.
    + eapply Forall_impl; [|exact Hbubbles]. simpl; intros; lia.
    + repeat constructor; simpl; lia.
Qed.

(** Every handle of an older bubble names the same item as before,
    translated by twice the height of the new bubble. *)
Lemma send_message_old self message left after id :
  fresh self -> NoDup (bubble_ids (ChatCanvas.bubbles self)) ->
  ChatCanvas.send_message self message left = Some after ->
  In id (bubble_ids (ChatCanvas.bubbles self)) ->
  find (ChatCanvas.cnv after) id
  = option_map (translate 0 (- (2 * frame_height (textwrap_fill message 20))))
      (find (ChatCanvas.cnv self) id).
Proof.
  intros Hf Hnd Hs Hin.
  destruct (send_message_spec self message left Hf) as [region Heq].
  rewrite Heq in Hs. injection Hs as <-.
  unfold find. cbn [ChatCanvas.cnv items].
  rewrite lookup_app, lookup_shift_all_in by assumption.
  destruct (lookup id (items (ChatCanvas.cnv self))) as [it|] eqn:Hl;
    [reflexivity|].
  simpl. destruct Hf as [_ Hb]. rewrite Forall_forall in Hb.
  apply Hb in Hin.
  destruct (Z.eqb_spec (next_id (ChatCanvas.cnv self)) id); [lia|].
  destruct (Z.eqb_spec (next_id (ChatCanvas.cnv self) + 1) id); [lia|].
  reflexivity.
Qed.

(** The new bubble: where its body and its stem are after the send. *)
Lemma send_message_new self message left after :
  fresh self ->
  ChatCanvas.send_message self message left = Some after ->
  let text := textwrap_fill message 20 in
  let n := next_id (ChatCanvas.cnv self) in
  let y := ChatBubble.BUBBLE_PAD_Y - frame_height text in
  ChatCanvas.bubbles after
  = ChatCanvas.bubbles self
    ++ [{| ChatBubble.left := left; ChatBubble.i := n;
           ChatBubble.bubl_tip := n + 1 |}]
  /\ find (ChatCanvas.cnv after) n = Some (Window (pad_x left) y (Frame text))
  /\ bbox (ChatCanvas.cnv after) n = Some (window_bbox (pad_x left) y (Frame text))
  /\ find (ChatCanvas.cnv after) (n + 1)
     = Some (Polygon (ChatBubble.triangle left
                        (window_bbox (pad_x left) y (Frame text)))).
Proof.
  intros Hf Hs text n y.
  destruct (send_message_spec self message left Hf) as [region Heq].
  rewrite Heq in Hs. clear Heq.
  apply (f_equal (fun o => match o with Some a => a | None => after end)) in Hs.
  subst after.
  destruct Hf as [Hitems Hbubbles].
  pose proof (shifted_below (- (2 * frame_height text))
                (ChatCanvas.bubbles self) _ _ Hitems) as Hold.
  change (next_id (ChatCanvas.cnv self)) with n in Hold |- *.
  change (textwrap_fill message 20) with text.
  change (ChatBubble.BUBBLE_PAD_Y - frame_height text) with y.
  split; [reflexivity|]. split; [|split].
  - change (lookup n
              (shift_all (- (2 * frame_height text)) (ChatCanvas.bubbles self)
                 (items (ChatCanvas.cnv self))
               ++ [(n, Window (pad_x left) y (Frame text));
                   (n + 1,
                    Polygon (translate_coords 0 (- frame_height text)
                               (ChatBubble.triangle left
                                  (window_bbox (pad_x left)
                                     ChatBubble.BUBBLE_PAD_Y (Frame text)))))])
            = Some (Window (pad_x left) y (Frame text))).
    rewrite lookup_app, (lookup_below n n _ Hold) by lia.
    unfold lookup. rewrite Z.eqb_refl. reflexivity.
  - apply bbox_window; [exact Hold|].
    constructor; [|constructor]. unfold fst. lia.
  - change (lookup (n + 1)
              (shift_all (- (2 * frame_height text)) (ChatCanvas.bubbles self)
                 (items (ChatCanvas.cnv self))
               ++ [(n, Window (pad_x left) y (Frame text));
                   (n + 1,
                    Polygon (translate_coords 0 (- frame_height text)
                               (ChatBubble.triangle left
                                  (window_bbox (pad_x left)
                                     ChatBubble.BUBBLE_PAD_Y (Frame text)))))])
            = Some (Polygon (ChatBubble.triangle left
                               (window_bbox (pad_x left) y (Frame text))))).
    rewrite lookup_app, (lookup_below (n + 1) n _ Hold) by lia.
    unfold lookup. destruct (Z.eqb_spec n (n + 1)); [lia|].
    rewrite Z.eqb_refl. do 2 f_equal.
    unfold window_bbox, ChatBubble.triangle, y, translate_coords.
    destruct left;
      repeat (apply (f_equal2 (@cons Z)); [lia|]); reflexivity.
Qed.

Lemma send_message_live self message left after :
  fresh self -> live self ->
  ChatCanvas.send_message self message left = Some after ->
  live after.
Proof.
  intros Hf [Hnd Hall] Hs.
  destruct (send_message_new self message left after Hf Hs)
    as (Hb & Hbody & _ & Hstem).
  split.
  - rewrite Hb, bubble_ids_app. simpl.
    destruct Hf as [_ Hbelow]. rewrite Forall_forall in Hbelow.
    apply NoDup_app; [exact Hnd| |].
    + repeat constructor; simpl; [|tauto]. intros [H|[]]; lia.
    + intros id Hin [<-|[<-|[]]]; apply Hbelow in Hin; lia.
  - rewrite Hb, bubble_ids_app. apply Forall_app. split.
    + rewrite Forall_forall in Hall |- *. intros id Hin.
      rewrite (send_message_old self message left after id Hf Hnd Hs Hin).
      destruct (Hall id Hin) as [it ->]. simpl. eauto.
    + simpl. repeat constructor; eauto.
Qed.

Lemma send_all_invariant msgs : forall self,
  fresh self -> live self ->
  exists after,
    send_all self msgs = Some after /\ fresh after /\ live after.
Proof.
  induction msgs as [|m msgs IH]; intros self Hf Hl; simpl; [eauto|].
  destruct (send_message_spec self (fst m) (snd m) Hf) as [region Heq].
  pose proof Heq as Heq'. rewrite Heq.
  apply IH.
  - eapply send_message_fresh; eassumption.
  - eapply send_message_live; eassumption.
Qed.

End Layout.

(** C1: after any run of [send_message] calls on a new canvas, one more
    call appends the new bubble to the list (the order of the older ones
    is kept), leaves its body at the baseline 500 minus its own height
    [y2 - y1] with its stem flush against its box, and translates the
    body and the stem of every older bubble upward by exactly twice that
    height from where they were before the call. *)
Theorem send_message_layout :
  forall (P : Tk.Platform) (history : list (string * bool))
         (message : string) (left : bool),
  exists before after newest x1 y1 x2 y2,
    send_all ChatCanvas.init history = Some before
    /\ ChatCanvas.send_message before message left = Some after
    /\ ChatCanvas.bubbles after = ChatCanvas.bubbles before ++ [newest]
    /\ Tk.bbox (ChatCanvas.cnv after) (ChatBubble.i newest)
       = Some (x1, y1, x2, y2)
    /\ 0 < y2 - y1
    /\ (exists x w,
           Tk.find (ChatCanvas.cnv after) (ChatBubble.i newest)
           = Some (Tk.Window x (500 - (y2 - y1)) w))
    /\ Tk.find (ChatCanvas.cnv after) (ChatBubble.bubl_tip newest)
       = Some (Tk.Polygon (ChatBubble.triangle left (x1, y1, x2, y2)))
    /\ forall b, In b (ChatCanvas.bubbles before) ->
         exists body stem,
           Tk.find (ChatCanvas.cnv before) (ChatBubble.i b) = Some body
           /\ Tk.find (ChatCanvas.cnv before) (ChatBubble.bubl_tip b) = Some stem
           /\ Tk.find (ChatCanvas.cnv after) (ChatBubble.i b)
              = Some (Tk.translate 0 (- (2 * (y2 - y1))) body)
           /\ Tk.find (ChatCanvas.cnv after) (ChatBubble.bubl_tip b)
              = Some (Tk.translate 0 (- (2 * (y2 - y1))) stem).
Proof.
  intros P history message left.
  destruct (send_all_invariant history ChatCanvas.init fresh_init live_init)
    as (before & Hrun & Hf & Hnd & Hlive).
  destruct (send_message_spec before message left Hf) as [region Hsend].
  match type of Hsend with _ = Some ?a => set (after := a) in * end.
  destruct (send_message_new before message left after Hf Hsend)
    as (Hb & Hbody & Hbox & Hstem).
  pose proof (window_bbox_height (pad_x left)
                (ChatBubble.BUBBLE_PAD_Y
                 - frame_height (Tk.textwrap_fill message 20))
                (Tk.textwrap_fill message 20)) as Hh.
  pose proof (frame_height_pos (Tk.textwrap_fill message 20)) as Hpos.
  destruct (Tk.window_bbox (pad_x left)
              (ChatBubble.BUBBLE_PAD_Y
               - frame_height (Tk.textwrap_fill message 20))
              (Tk.Frame (Tk.textwrap_fill message 20)))
    as [[[x1 y1] x2] y2].
  exists before, after,
    {| ChatBubble.left := left;
       ChatBubble.i := Tk.next_id (ChatCanvas.cnv before);
       ChatBubble.bubl_tip := Tk.next_id (ChatCanvas.cnv before) + 1 |},
    x1, y1, x2, y2.
  rewrite Hh.
  repeat split; try assumption.
  - do 2 eexists. exact Hbody.
  - intros b Hin.
    assert (Hi : In (ChatBubble.i b) (bubble_ids (ChatCanvas.bubbles before))).
    { apply in_flat_map. exists b. simpl; auto. }
    assert (Ht : In (ChatBubble.bubl_tip b) (bubble_ids (ChatCanvas.bubbles before))).
    { apply in_flat_map. exists b. simpl; auto. }
    rewrite Forall_forall in Hlive.
    destruct (Hlive _ Hi) as [body Hbody0].
    destruct (Hlive _ Ht) as [stem Hstem0].
    exists body, stem.
    rewrite (send_message_old before message left after _ Hf Hnd Hsend Hi).
    rewrite (send_message_old before message left after _ Hf Hnd Hsend Ht).
    rewrite Hbody0, Hstem0. auto.
Qed.

(** ** The persisted record *)

Section JsonFacts.
Import Json.

Lemma scan_append st a b :
  scan st (append a b) = (st' <- scan st a ;; scan st' b).
Proof.
  revert st; induction a as [|c a IH]; intros st; simpl; [reflexivity|].
  destruct (step st c); [apply IH|reflexivity].
Qed.

Lemma append_after (a b c : string) :
  append (append a b) c = append a (append b c).
Proof.
  induction a as [|x a IH]; simpl; [reflexivity|]. rewrite IH. reflexivity.
Qed.

Lemma append_empty (a : string) : append a EmptyString = a.
Proof.
  induction a as [|x a IH]; simpl; [reflexivity|]. rewrite IH. reflexivity.
Qed.

(** The scanner undoes the escape of any one character. *)
Lemma scan_escape_char c done cur rest :
  scan (InString done cur) (append (escape_char c) rest)
  = scan (InString done (snoc cur c)) rest.
Proof.
  destruct c as [[] [] [] [] [] [] [] []]; reflexivity.
Qed.

Lemma scan_escape s : forall done cur rest,
  scan (InString done cur) (append (escape s) rest)
  = scan (InString done (append cur s)) rest.
Proof.
  induction s as [|c s IH]; intros done cur rest; simpl.
  - rewrite append_empty. reflexivity.
  - rewrite append_after, scan_escape_char, IH.
    unfold snoc. rewrite append_after. reflexivity.
Qed.

Lemma scan_encode_string s done rest :
  scan (InString done EmptyString)
    (append (escape s) (String quote rest))
  = scan (AfterValue (done ++ [s])) rest.
Proof.
  rewrite scan_escape. reflexivity.
Qed.

Lemma scan_encode_rest l : forall done,
  scan (AfterValue done) (encode_rest l) = Some (Closed (done ++ l)).
Proof.
  induction l as [|s l IH]; intros done; simpl.
  - rewrite app_nil_r. reflexivity.
  - unfold encode_string.
    change (scan (InString done EmptyString)
              (append (append (escape s) (String quote EmptyString))
                 (encode_rest l))
            = Some (Closed (done ++ s :: l))).
    rewrite append_after. simpl append.
    rewrite scan_encode_string, IH, <- app_assoc. reflexivity.
Qed.

Lemma load_dump l : load (dump l) = Some l.
Proof.
  unfold load. destruct l as [|s l]; [reflexivity|].
  unfold dump, encode_string.
  change (match scan (InString [] EmptyString)
                  (append (append (escape s) (String quote EmptyString))
                     (encode_rest l))
          with
          | Some (Closed done) => Some done
          | _ => None
          end = Some (s :: l)).
  rewrite append_after. simpl append.
  rewrite scan_encode_string, scan_encode_rest. reflexivity.
Qed.

End JsonFacts.

(** ** The persisted record on Python strings *)


Section UnicodeFacts.
Import Unicode.
Local Open Scope N_scope.








Lemma is_high_spec c : is_high c = true <-> 55296 <= c <= 56319.
Proof.
  unfold is_high. rewrite andb_true_iff, !N.leb_le. reflexivity.
Qed.


Lemma not_high c : ~ 55296 <= c <= 56319 -> is_high c = false.
Proof.
  intros H. destruct (is_high c) eqn:E; [|reflexivity].
  apply is_high_spec in E. contradiction.
Qed.







(** *** 8-bit text is a special case *)

Lemma code_points_append a b :
  code_points (append a b) = code_points a ++ code_points b.
Proof.
  unfold code_points.
  induction a as [|c a IH]; cbn [append list_ascii_of_string map app];
    [reflexivity|].
  rewrite IH. reflexivity.
Qed.

Lemma code_points_snoc s c :
  code_points (Json.snoc s c) = code_points s ++ [N_of_ascii c].
Proof.
  unfold Json.snoc. rewrite code_points_append. reflexivity.
Qed.






Lemma step_lift st c st' :
  Json.step st c = Some st' -> step (lift st) (N_of_ascii c) = Some (lift st').
Proof.
  unfold Json.step, step.
  destruct st as [| |done cur|done cur|done cur k v|done|done|done];
    cbn [lift flush];
    change (is_space (N_of_ascii c)) with (Json.is_space (N_of_ascii c));
    change (hex_value (N_of_ascii c)) with (Json.hex_value (N_of_ascii c)).
  - destruct (Json.is_space _); [intros [= <-]; reflexivity|].
    destruct (_ =? 91); [intros [= <-]; reflexivity|discriminate].
  - destruct (Json.is_space _); [intros [= <-]; reflexivity|].
    destruct (_ =? 34); [intros [= <-]; reflexivity|].
    destruct (_ =? 93); [intros [= <-]; reflexivity|discriminate].
  - destruct (_ =? 34).
    { intros [= <-]. cbn [lift]. rewrite map_app. reflexivity. }
    destruct (_ =? 92); [intros [= <-]; reflexivity|].
    destruct (_ <? 32); [discriminate|].
    intros [= <-]. cbn [lift]. rewrite code_points_snoc. reflexivity.
  - repeat (destruct (_ =? _);
            [intros [= <-]; cbn [lift]; try rewrite code_points_snoc;
             reflexivity|]).
    discriminate.
  - destruct (Json.hex_value _) as [d|]; [|discriminate].
    destruct k as [|[|[|[|k]]]]; try (intros [= <-]; reflexivity).
    destruct (16 * v + d <? 256) eqn:Hv; [|discriminate].
    apply N.ltb_lt in Hv.
    intros [= <-]. cbn [lift finish]. unfold single.
    rewrite not_high by lia.
    rewrite code_points_snoc, N_ascii_embedding by exact Hv. reflexivity.
  - destruct (Json.is_space _); [intros [= <-]; reflexivity|].
    destruct (_ =? 44); [intros [= <-]; reflexivity|].
    destruct (_ =? 93); [intros [= <-]; reflexivity|discriminate].
  - destruct (Json.is_space _); [intros [= <-]; reflexivity|].
    destruct (_ =? 34); [intros [= <-]; reflexivity|discriminate].
  - destruct (Json.is_space _); [intros [= <-]; reflexivity|discriminate].
Qed.

Lemma scan_lift s : forall st st',
  Json.scan st s = Some st' -> scan (lift st) (code_points s) = Some (lift st').
Proof.
  induction s as [|c s IH]; intros st st'.
  - intros [= <-]. reflexivity.
  - cbn [Json.scan].
    destruct (Json.step st c) as [st1|] eqn:Hstep; [|discriminate].
    intros Hscan.
    change (code_points (String c s)) with (N_of_ascii c :: code_points s).
    cbn [scan]. rewrite (step_lift _ _ _ Hstep).
    apply IH. exact Hscan.
Qed.

(** 8-bit text holds no surrogate. *)
Lemma code_points_text s : text (code_points s).
Proof.
  unfold text, code_points. apply Forall_forall. intros c Hin.
  apply in_map_iff in Hin. destruct Hin as (a & <- & _).
  pose proof (N_ascii_bounded a) as Hb. unfold code_point. lia.
Qed.

Lemma code_points_unpaired s : paired (code_points s) = false.
Proof.
  unfold code_points.
  induction s as [|a s IH]; [reflexivity|].
  cbn [list_ascii_of_string map paired].
  destruct s as [|b s]; [reflexivity|].
  cbn [list_ascii_of_string map] in *.
  rewrite IH, orb_false_r.
  rewrite not_high; [reflexivity|].
  pose proof (N_ascii_bounded a) as Hb. lia.
Qed.

(** Whatever [Json.load] reads, [load] reads from the same text. *)
Lemma load_code_points f l :
  Json.load f = Some l -> load (code_points f) = Some (map code_points l).
Proof.
  unfold Json.load, load.
  destruct (Json.scan Json.Start f) as [st|] eqn:Hscan; [|discriminate].
  change Start with (lift Json.Start).
  rewrite (scan_lift _ _ _ Hscan).
  destruct st; try discriminate.
  intros [= <-]. reflexivity.
Qed.

End UnicodeFacts.

(** ** The conversation on the canvas *)

Section Transcript.
Context {P : Tk.Platform}.
Import Tk.

Lemma frame_text_translate dx dy o :
  frame_text (option_map (translate dx dy) o) = frame_text o.
Proof. destruct o as [[x y [text|text]|cs]|]; reflexivity. Qed.

Lemma frame_text_move_in id id' dx dy its :
  frame_text (lookup id (move_in id' dx dy its)) = frame_text (lookup id its).
Proof.
  rewrite lookup_move_in. destruct (id' =? id); [|reflexivity].
  apply frame_text_translate.
Qed.

Lemma frame_text_shift_all id dy bs : forall its,
  frame_text (lookup id (shift_all dy bs its)) = frame_text (lookup id its).
Proof.
  induction bs as [|b bs IH]; intros its; simpl; [reflexivity|].
  rewrite IH, !frame_text_move_in. reflexivity.
Qed.

Lemma transcript_send self message left after :
  fresh self ->
  ChatCanvas.send_message self message left = Some after ->
  transcript after
  = transcript self ++ [(left, Some (textwrap_fill message 20))].
Proof.
  intros Hf Hs.
  destruct (send_message_new self message left after Hf Hs)
    as (Hb & Hbody & _ & _).
  unfold transcript. rewrite Hb, map_app. f_equal.
  - apply map_ext_in. intros b Hin. f_equal.
    destruct (send_message_spec self message left Hf) as [region Heq].
    rewrite Heq in Hs.
    apply (f_equal (fun o => match o with Some a => a | None => after end)) in Hs.
    subst after.
    assert (Hid : ChatBubble.i b < next_id (ChatCanvas.cnv self)).
    { destruct Hf as [_ Hbelow]. rewrite Forall_forall in Hbelow.
      apply Hbelow, in_flat_map. exists b. simpl; auto. }
    change (frame_text
              (lookup (ChatBubble.i b)
                 (shift_all (- (2 * frame_height (textwrap_fill message 20)))
                    (ChatCanvas.bubbles self) (items (ChatCanvas.cnv self))
                  ++ [(next_id (ChatCanvas.cnv self),
                       Window (pad_x left)
                         (ChatBubble.BUBBLE_PAD_Y
                          - frame_height (textwrap_fill message 20))
                         (Frame (textwrap_fill message 20)));
                      (next_id (ChatCanvas.cnv self) + 1,
                       Polygon (translate_coords 0
                                  (- frame_height (textwrap_fill message 20))
                                  (ChatBubble.triangle left
                                     (window_bbox (pad_x left)
                                        ChatBubble.BUBBLE_PAD_Y
                                        (Frame (textwrap_fill message 20))))))]))
            = frame_text (lookup (ChatBubble.i b) (items (ChatCanvas.cnv self)))).
    rewrite lookup_app.
    rewrite <- (frame_text_shift_all (ChatBubble.i b)
                  (- (2 * frame_height (textwrap_fill message 20)))
                  (ChatCanvas.bubbles self) (items (ChatCanvas.cnv self))).
    destruct (lookup (ChatBubble.i b) (shift_all _ _ _)); [reflexivity|].
    unfold lookup.
    destruct (Z.eqb_spec (next_id (ChatCanvas.cnv self)) (ChatBubble.i b)); [lia|].
    destruct (Z.eqb_spec (next_id (ChatCanvas.cnv self) + 1) (ChatBubble.i b));
      [lia|reflexivity].
  - unfold map. cbv beta iota delta [ChatBubble.left ChatBubble.i].
    rewrite Hbody. reflexivity.
Qed.

End Transcript.

(** ** The capture workflow *)

Section Workflow.
Context {P : Tk.Platform}.

Lemma capturing_entry self :
  workflow_state self = CAPTURING_TASKS ->
  MainApplication.entry_enabled self = true
  /\ MainApplication.return_bound self = true.
Proof.
  unfold workflow_state.
  destruct (MainApplication.return_bound self),
           (MainApplication.entry_enabled self); intros H;
    try discriminate; auto.
Qed.

Lemma set_main_app_same p self :
  main_app p = Some self -> set_main_app p self = p.
Proof. destruct p; simpl; intros ->; reflexivity. Qed.

Lemma set_main_app_twice p a b :
  set_main_app (set_main_app p a) b = set_main_app p b.
Proof. reflexivity. Qed.

Lemma nonempty_length (line : string) :
  line <> EmptyString -> (String.length line =? 0)%nat = false.
Proof. destruct line; [congruence|reflexivity]. Qed.

(** One non-empty line: the handler sends it from the right and
    appends it, as typed, to [tasks]. *)
Lemma submit_line p self line :
  capturing p self -> fresh (MainApplication.cnv_chat self) ->
  line <> EmptyString ->
  exists c,
    ChatCanvas.send_message (MainApplication.cnv_chat self) line false = Some c
    /\ mainloop p (submit line)
       = Some (set_main_app p
                 {| MainApplication.tasks := MainApplication.tasks self ++ [line];
                    MainApplication.cnv_chat := c;
                    MainApplication.entry_enabled := true;
                    MainApplication.entry_text := EmptyString;
                    MainApplication.return_bound := true |}).
Proof.
  intros (Happ & Hstate & Hquit & Halive) Hf Hline.
  destruct (capturing_entry self Hstate) as [Hen Hbound].
  destruct (send_message_spec (MainApplication.cnv_chat self) line false Hf)
    as [region Hsend].
  eexists. split; [exact Hsend|].
  unfold submit, mainloop, dispatch.
  rewrite Hquit, Halive, Happ, Hen. cbn [orb negb].
  destruct p as [dj bg wm alive q app wdw]. cbn in Hquit, Halive, Happ.
  subst q alive app.
  cbn [set_main_app quit root_alive main_app orb negb set_entry
         MainApplication.entry_enabled MainApplication.return_bound andb].
  rewrite Hbound. cbn [andb].
  unfold input_tasks.
  cbn [main_app set_main_app set_entry MainApplication.entry_text
         MainApplication.cnv_chat MainApplication.tasks
         MainApplication.entry_enabled MainApplication.return_bound].
  rewrite (nonempty_length line Hline), Hsend.
  reflexivity.
Qed.

Lemma mainloop_app a : forall p b,
  mainloop p (a ++ b) = (p' <- mainloop p a ;; mainloop p' b).
Proof.
  induction a as [|e a IH]; intros p b; simpl; [reflexivity|].
  destruct (dispatch p e); [apply IH|reflexivity].
Qed.

Lemma capture_lines lines : forall p self,
  capturing p self -> fresh (MainApplication.cnv_chat self) ->
  Forall (fun line => line <> EmptyString) lines ->
  exists self',
    mainloop p (flat_map submit lines) = Some (set_main_app p self')
    /\ workflow_state self' = CAPTURING_TASKS
    /\ MainApplication.tasks self' = MainApplication.tasks self ++ lines
    /\ transcript (MainApplication.cnv_chat self')
       = transcript (MainApplication.cnv_chat self)
         ++ map (fun line => (false, Some (Tk.textwrap_fill line 20))) lines
    /\ fresh (MainApplication.cnv_chat self').
Proof.
  induction lines as [|line lines IH]; intros p self Hc Hf Hlines.
  - exists self. destruct Hc as (Happ & Hstate & _).
    simpl. rewrite set_main_app_same, !app_nil_r by assumption. auto.
  - inversion Hlines as [|? ? Hline Hrest]; subst.
    destruct (submit_line p self line Hc Hf Hline) as (c & Hsend & Hrun).
    set (self1 := {| MainApplication.tasks := MainApplication.tasks self ++ [line];
                     MainApplication.cnv_chat := c;
                     MainApplication.entry_enabled := true;
                     MainApplication.entry_text := EmptyString;
                     MainApplication.return_bound := true |}) in *.
    assert (Hc1 : capturing (set_main_app p self1) self1).
    { destruct Hc as (_ & _ & Hq & Ha). repeat split; assumption. }
    assert (Hf1 : fresh (MainApplication.cnv_chat self1)).
    { eapply send_message_fresh; eassumption. }
    destruct (IH (set_main_app p self1) self1 Hc1 Hf1 Hrest)
      as (self' & Hrun' & Hstate' & Htasks' & Htr' & Hf').
    exists self'.
    change (flat_map submit (line :: lines))
      with (submit line ++ flat_map submit lines).
    rewrite mainloop_app, Hrun, Hrun', set_main_app_twice.
    split; [reflexivity|]. split; [assumption|].
    split; [|split; [|assumption]].
    + rewrite Htasks'. unfold self1. cbn [MainApplication.tasks].
      rewrite <- app_assoc. reflexivity.
    + rewrite Htr'. unfold self1. cbn [MainApplication.cnv_chat].
      rewrite (transcript_send _ _ _ _ Hf Hsend), <- app_assoc. reflexivity.
Qed.

(** The empty line: the checklist window is built on [tasks] (which
    writes the file), the canvas is emptied, the root window is
    withdrawn, the handler is unbound and the entry disabled. *)
Lemma submit_empty p self :
  capturing p self ->
  mainloop p (submit EmptyString)
  = Some {| data_json := Some (Json.dump (MainApplication.tasks self));
            mainbg_png := mainbg_png p;
            root_wm := Withdrawn;
            root_alive := true;
            quit := false;
            main_app :=
              Some {| MainApplication.tasks := MainApplication.tasks self;
                      MainApplication.cnv_chat :=
                        ChatCanvas.with_cnv (MainApplication.cnv_chat self)
                          (Tk.delete_all
                             (ChatCanvas.cnv (MainApplication.cnv_chat self)));
                      MainApplication.entry_enabled := false;
                      MainApplication.entry_text := EmptyString;
                      MainApplication.return_bound := false |};
            wdw_tasks :=
              Some {| TaskWindow.task_list := MainApplication.tasks self;
                      TaskWindow.app := true;
                      TaskWindow.labels := MainApplication.tasks self;
                      TaskWindow.destroy_bound := true |} |}.
Proof.
  intros (Happ & Hstate & Hquit & Halive).
  destruct (capturing_entry self Hstate) as [Hen Hbound].
  destruct p as [dj bg wm alive q app wdw]. cbn in Hquit, Halive, Happ.
  subst q alive app.
  destruct self as [tasks c en text bound]. cbn in Hen, Hbound. subst en bound.
  reflexivity.
Qed.

Lemma main_fresh :
  exists p self,
    main None true = Some p
    /\ capturing p self
    /\ MainApplication.tasks self = []
    /\ transcript (MainApplication.cnv_chat self)
       = [(true, Some (Tk.textwrap_fill "Welcome back!" 20));
          (true,
           Some (Tk.textwrap_fill
                   "Please enter today's tasks, one at a time, entering in nothing when finished."
                   20))]
    /\ fresh (MainApplication.cnv_chat self)
    /\ data_json p = None
    /\ root_wm p = Shown
    /\ wdw_tasks p = None
    /\ mainbg_png p = true.
Proof.
  destruct (send_message_spec ChatCanvas.init "Welcome back!" true fresh_init)
    as [r1 H1].
  pose proof (send_message_fresh _ _ _ _ fresh_init H1) as Hf1.
  pose proof (transcript_send _ _ _ _ fresh_init H1) as Ht1.
  match type of H1 with _ = Some ?a => set (c1 := a) in * end.
  destruct (send_message_spec c1
              "Please enter today's tasks, one at a time, entering in nothing when finished."
              true Hf1) as [r2 H2].
  pose proof (send_message_fresh _ _ _ _ Hf1 H2) as Hf2.
  pose proof (transcript_send _ _ _ _ Hf1 H2) as Ht2.
  match type of H2 with _ = Some ?a => set (c2 := a) in * end.
  set (self := {| MainApplication.tasks := [];
                  MainApplication.cnv_chat := c2;
                  MainApplication.entry_enabled := true;
                  MainApplication.entry_text := EmptyString;
                  MainApplication.return_bound := true |}).
  exists {| data_json := None; mainbg_png := true; root_wm := Shown;
            root_alive := true; quit := false; main_app := Some self;
            wdw_tasks := None |}, self.
  split.
  - unfold main, MainApplication_init, gather_info.
    cbn [main_app set_main_app mainbg_png MainApplication.cnv_chat].
    rewrite H1, H2. reflexivity.
  - split; [repeat split|]. split; [reflexivity|].
    split; [|split; [exact Hf2|repeat split]].
    unfold self. cbn [MainApplication.cnv_chat].
    rewrite Ht2, Ht1. reflexivity.
Qed.

End Workflow.

(** C3: from any state in CAPTURING_TASKS, whatever number of non-empty
    lines is submitted first (none included), submitting the empty line
    leaves the workflow in COMPLETE with the entry disabled and its
    handler unbound, so that lines submitted afterwards change nothing,
    and the checklist window is built on the tasks collected. *)
Theorem empty_line_completes :
  forall (P : Tk.Platform) (p : process) (self : MainApplication.t)
         (lines : list string),
    capturing p self ->
    fresh (MainApplication.cnv_chat self) ->
    Forall (fun line => line <> EmptyString) lines ->
    exists p' self',
      mainloop p (flat_map submit lines ++ submit EmptyString) = Some p'
      /\ main_app p' = Some self'
      /\ workflow_state self' = COMPLETE
      /\ MainApplication.entry_enabled self' = false
      /\ MainApplication.return_bound self' = false
      /\ wdw_tasks p'
         = Some {| TaskWindow.task_list := MainApplication.tasks self ++ lines;
                   TaskWindow.app := true;
                   TaskWindow.labels := MainApplication.tasks self ++ lines;
                   TaskWindow.destroy_bound := true |}
      /\ forall line, mainloop p' (submit line) = Some p'.
Proof.
  intros P p self lines Hc Hf Hlines.
  destruct (capture_lines lines p self Hc Hf Hlines)
    as (self1 & Hrun & Hstate & Htasks & _ & _).
  assert (Hc1 : capturing (set_main_app p self1) self1).
  { destruct Hc as (_ & _ & Hq & Ha). repeat split; assumption. }
  rewrite mainloop_app, Hrun, (submit_empty _ _ Hc1), Htasks.
  eexists. eexists. split; [reflexivity|].
  repeat split.
Qed.

(** C4: the non-empty lines submitted while capturing are each sent as a
    RIGHT bubble and appended to the task list, in the order submitted
    and with nothing dropped or merged; and on a fresh launch the lines
    Buy milk, Walk dog and the empty line leave exactly these two tasks
    and the workflow in COMPLETE. *)
Theorem lines_are_echoed_and_collected :
  forall (P : Tk.Platform) (p : process) (self : MainApplication.t)
         (lines : list string),
    capturing p self ->
    fresh (MainApplication.cnv_chat self) ->
    Forall (fun line => line <> EmptyString) lines ->
    (exists self',
        mainloop p (flat_map submit lines) = Some (set_main_app p self')
        /\ workflow_state self' = CAPTURING_TASKS
        /\ MainApplication.tasks self' = MainApplication.tasks self ++ lines
        /\ transcript (MainApplication.cnv_chat self')
           = transcript (MainApplication.cnv_chat self)
             ++ map (fun line => (false, Some (Tk.textwrap_fill line 20))) lines)
    /\ (exists p0 p' self',
           main None true = Some p0
           /\ mainloop p0 (submit "Buy milk" ++ submit "Walk dog"
                           ++ submit EmptyString) = Some p'
           /\ main_app p' = Some self'
           /\ MainApplication.tasks self' = ["Buy milk"; "Walk dog"]
           /\ workflow_state self' = COMPLETE
           /\ option_map TaskWindow.task_list (wdw_tasks p')
              = Some ["Buy milk"; "Walk dog"]).
Proof.
  intros P p self lines Hc Hf Hlines. split.
  - destruct (capture_lines lines p self Hc Hf Hlines)
      as (self' & Hrun & Hstate & Htasks & Htr & _).
    exists self'. auto.
  - destruct main_fresh as (p0 & self0 & Hmain & Hc0 & Htasks0 & _ & Hf0 & _).
    assert (Hne : Forall (fun line => line <> EmptyString) ["Buy milk"; "Walk dog"]).
    { repeat constructor; discriminate. }
    destruct (capture_lines _ p0 self0 Hc0 Hf0 Hne)
      as (self1 & Hrun & Hstate & Htasks & _ & _).
    assert (Hc1 : capturing (set_main_app p0 self1) self1).
    { destruct Hc0 as (_ & _ & Hq & Ha). repeat split; assumption. }
    exists p0. eexists. eexists. split; [exact Hmain|].
    change (submit "Buy milk" ++ submit "Walk dog" ++ submit EmptyString)
      with (flat_map submit ["Buy milk"; "Walk dog"] ++ submit EmptyString).
    rewrite mainloop_app, Hrun, (submit_empty _ _ Hc1), Htasks, Htasks0.
    repeat split.
Qed.

(** C10: what a non-empty line adds to the task list, and what the file
    holds once the empty line follows, is the text as typed; the wrapped
    text is only what the new bubble shows. *)
Theorem tasks_keep_the_typed_text :
  forall (P : Tk.Platform) (p : process) (self : MainApplication.t)
         (line : string),
    capturing p self ->
    fresh (MainApplication.cnv_chat self) ->
    line <> EmptyString ->
    exists self' p'',
      mainloop p (submit line) = Some (set_main_app p self')
      /\ MainApplication.tasks self' = MainApplication.tasks self ++ [line]
      /\ transcript (MainApplication.cnv_chat self')
         = transcript (MainApplication.cnv_chat self)
           ++ [(false, Some (Tk.textwrap_fill line 20))]
      /\ mainloop (set_main_app p self') (submit EmptyString) = Some p''
      /\ data_json p'' = Some (Json.dump (MainApplication.tasks self ++ [line]))
      /\ option_map TaskWindow.labels (wdw_tasks p'')
         = Some (MainApplication.tasks self ++ [line])
      /\ Json.load (Json.dump (MainApplication.tasks self ++ [line]))
         = Some (MainApplication.tasks self ++ [line]).
Proof.
  intros P p self line Hc Hf Hline.
  destruct (submit_line p self line Hc Hf Hline) as (c & Hsend & Hrun).
  match type of Hrun with _ = Some (set_main_app p ?a) => set (self1 := a) in * end.
  assert (Hc1 : capturing (set_main_app p self1) self1).
  { destruct Hc as (_ & _ & Hq & Ha). repeat split; assumption. }
  exists self1. eexists.
  split; [exact Hrun|]. split; [reflexivity|].
  split; [exact (transcript_send _ _ _ _ Hf Hsend)|].
  split; [exact (submit_empty _ _ Hc1)|].
  split; [reflexivity|]. split; [reflexivity|].
  apply load_dump.
Qed.

(** C2: for every bounding box [(x1, y1, x2, y2)] the stem of a LEFT
    bubble is the three points [(x1, y2-10)], [(x1-15, y2+10)], [(x1, y2)]
    and the stem of a RIGHT bubble is [(x2, y2-10)], [(x2+15, y2+10)],
    [(x2, y2)]; a box of height zero is no special case; and
    [draw_triangle] is this arithmetic on the box the canvas reports. *)
Theorem stem_polygon_points :
  forall (P : Tk.Platform) (x1 y1 x2 y2 : Z),
    points (ChatBubble.triangle true (x1, y1, x2, y2))
      = [(x1, y2 - 10); (x1 - 15, y2 + 10); (x1, y2)]
    /\ points (ChatBubble.triangle false (x1, y1, x2, y2))
      = [(x2, y2 - 10); (x2 + 15, y2 + 10); (x2, y2)]
    /\ points (ChatBubble.triangle true (x1, y1, x2, y1))
      = [(x1, y1 - 10); (x1 - 15, y1 + 10); (x1, y1)]
    /\ points (ChatBubble.triangle false (x1, y1, x2, y1))
      = [(x2, y1 - 10); (x2 + 15, y1 + 10); (x2, y1)]
    /\ forall parent left widget,
         ChatBubble.draw_triangle parent left widget
         = option_map (ChatBubble.triangle left) (Tk.bbox parent widget).
Proof.
  intros P x1 y1 x2 y2.
  split; [reflexivity|]. split; [reflexivity|].
  split; [reflexivity|]. split; [reflexivity|].
  intros parent left widget. unfold ChatBubble.draw_triangle.
  destruct (Tk.bbox parent widget); reflexivity.
Qed.




Section Launch.
Context {P : Tk.Platform}.

(** Until the completion button is pressed, a process without a
    MainApplication has none and keeps its root window as it is. *)
Lemma no_app_until_completion events : forall p,
  main_app p = None ->
  forallb (fun e => negb (is_completion e)) events = true ->
  exists p',
    mainloop p events = Some p'
    /\ main_app p' = None
    /\ root_wm p' = root_wm p.
Proof.
  induction events as [|e events IH]; intros p Hnone Hev; simpl; [eauto|].
  simpl in Hev. apply andb_true_iff in Hev. destruct Hev as [He Hev].
  assert (Hstep : exists p1, dispatch p e = Some p1
                             /\ main_app p1 = None /\ root_wm p1 = root_wm p).
  { unfold dispatch.
    destruct (quit p || negb (root_alive p)); [eauto|].
    destruct e; try discriminate; rewrite ?Hnone; eauto.
    destruct (wdw_tasks p) as [w|]; [|eauto].
    eexists. split; [reflexivity|].
    destruct (TaskWindow.destroy_bound w); [|auto].
    unfold kill_root. cbn [root_alive set_wdw_tasks andb].
    destruct (root_alive p); auto. }
  destruct Hstep as (p1 & -> & Hnone1 & Hwm1).
  destruct (IH p1 Hnone1 Hev) as (p' & Hrun & Hnone' & Hwm').
  exists p'. rewrite Hrun, Hwm', Hwm1. auto.
Qed.

End Launch.

(** C6: when [rec/data.json] exists (and holds an array of strings) the
    launch loads it, withdraws the root window and opens the checklist
    on the loaded tasks without ever constructing the MainApplication,
    and the root window stays withdrawn until the completion button is
    pressed; when the file does not exist the launch constructs the
    MainApplication, greets, and waits for lines with the root window
    shown and no checklist. *)
Theorem launch_resumes_or_starts_fresh :
  forall (P : Tk.Platform) (data_file : string) (tasks : list string)
         (mainbg : bool),
    Json.load data_file = Some tasks ->
    (exists p,
        main (Some data_file) mainbg = Some p
        /\ root_wm p = Withdrawn
        /\ main_app p = None
        /\ wdw_tasks p
           = Some {| TaskWindow.task_list := tasks;
                     TaskWindow.app := false;
                     TaskWindow.labels := tasks;
                     TaskWindow.destroy_bound := true |}
        /\ forall events,
             forallb (fun e => negb (is_completion e)) events = true ->
             exists p',
               mainloop p events = Some p'
               /\ main_app p' = None
               /\ root_wm p' = Withdrawn)
    /\ (exists p self,
           main None true = Some p
           /\ capturing p self
           /\ MainApplication.tasks self = []
           /\ transcript (MainApplication.cnv_chat self)
              = [(true, Some (Tk.textwrap_fill "Welcome back!" 20));
                 (true,
                  Some (Tk.textwrap_fill
                          "Please enter today's tasks, one at a time, entering in nothing when finished."
                          20))]
           /\ root_wm p = Shown
           /\ wdw_tasks p = None
           /\ data_json p = None).
Proof.
  intros P data_file tasks mainbg Hload. split.
  - eexists. split; [unfold main; rewrite Hload; reflexivity|].
    split; [reflexivity|]. split; [reflexivity|]. split; [reflexivity|].
    intros events Hev.
    match goal with
    | |- exists p', mainloop ?p _ = _ /\ _ =>
        destruct (no_app_until_completion events p eq_refl Hev)
          as (p' & Hrun & Hnone & Hwm)
    end.
    exists p'. auto.
  - destruct main_fresh
      as (p & self & Hmain & Hc & Htasks & Htr & _ & Hdata & Hwm & Hwdw & _).
    exists p, self. repeat split; try assumption; apply Hc.
Qed.

(** C9: the bubble [send_message] constructs shows the message wrapped
    by [textwrap.fill] at width 20 and is created at x = 90 on the LEFT
    and x = 350 on the RIGHT, at y = 500, before the canvas moves it. *)
Theorem new_bubble_text_and_anchor :
  forall (P : Tk.Platform) (self : ChatCanvas.t) (message : string)
         (left : bool),
    fresh self ->
    exists parent temp after,
      ChatBubble.init (ChatCanvas.cnv self) (Tk.textwrap_fill message 20) left
      = Some (parent, temp)
      /\ Tk.find parent (ChatBubble.i temp)
         = Some (Tk.Window (if left then 90 else 350) 500
                   (Tk.Frame (Tk.textwrap_fill message 20)))
      /\ ChatBubble.left temp = left
      /\ ChatCanvas.send_message self message left = Some after
      /\ ChatCanvas.bubbles after = ChatCanvas.bubbles self ++ [temp]
      /\ frame_text (Tk.find (ChatCanvas.cnv after) (ChatBubble.i temp))
         = Some (Tk.textwrap_fill message 20).
Proof.
  intros P self message left Hf.
  pose proof Hf as [Hitems _].
  destruct (send_message_spec self message left Hf) as [region Hsend].
  match type of Hsend with _ = Some ?a => set (after := a) in * end.
  destruct (send_message_new self message left after Hf Hsend)
    as (Hb & Hbody & _ & _).
  eexists. eexists. exists after.
  split; [apply init_spec; exact Hitems|].
  split.
  - unfold Tk.find. cbv beta iota delta [Tk.items ChatBubble.i].
    rewrite lookup_app,
      (lookup_below _ (Tk.next_id (ChatCanvas.cnv self)) _ Hitems) by lia.
    unfold Tk.lookup. rewrite Z.eqb_refl.
    destruct left; reflexivity.
  - split; [reflexivity|]. split; [exact Hsend|]. split; [exact Hb|].
    cbv beta iota delta [ChatBubble.i]. rewrite Hbody. reflexivity.
Qed.

(** ** Completing the checklist *)

Section Completion.
Context {P : Tk.Platform}.
Import Tk.

Lemma send_message_handles self message left after :
  fresh self ->
  ChatCanvas.send_message self message left = Some after ->
  map fst (items (ChatCanvas.cnv after))
  = map fst (items (ChatCanvas.cnv self))
    ++ [next_id (ChatCanvas.cnv self); next_id (ChatCanvas.cnv self) + 1]
  /\ next_id (ChatCanvas.cnv after) = next_id (ChatCanvas.cnv self) + 2.
Proof.
  intros Hf Hs.
  destruct (send_message_spec self message left Hf) as [region Heq].
  rewrite Heq in Hs.
  apply (f_equal (fun o => match o with Some a => a | None => after end)) in Hs.
  subst after.
  cbv beta iota delta [ChatCanvas.cnv items next_id].
  split; [|reflexivity].
  rewrite map_app, shift_all_ids. reflexivity.
Qed.

Lemma transcript_exit_btn self :
  transcript (ChatCanvas.exit_btn self) = transcript self.
Proof.
  unfold transcript. destruct self as [[its nid sr yv] bs].
  cbv beta iota delta [ChatCanvas.exit_btn ChatCanvas.with_cnv
                         ChatCanvas.bubbles ChatCanvas.cnv].
  apply map_ext. intros b. f_equal.
  unfold find, create_window, create.
  cbv beta iota delta [fst items next_id].
  rewrite lookup_app.
  destruct (lookup (ChatBubble.i b) its); [reflexivity|].
  unfold lookup. destruct (nid =? ChatBubble.i b); reflexivity.
Qed.

(** The command of the button Tasks Finished, over a live application:
    everything but the file. *)
Lemma end_tasks_spec p self window :
  checklist_open p self window ->
  fresh (MainApplication.cnv_chat self) ->
  exists c1 c2,
    ChatCanvas.send_message (MainApplication.cnv_chat self)
      "Another day, another dollar" true = Some c1
    /\ ChatCanvas.send_message c1 "Alright, I'll see ya tomorrow" true = Some c2
    /\ dispatch p ClickTasksFinished
       = Some {| data_json := data_json p;
                 mainbg_png := mainbg_png p;
                 root_wm := Shown;
                 root_alive := true;
                 quit := false;
                 main_app :=
                   Some {| MainApplication.tasks := MainApplication.tasks self;
                           MainApplication.cnv_chat := ChatCanvas.exit_btn c2;
                           MainApplication.entry_enabled := false;
                           MainApplication.entry_text :=
                             MainApplication.entry_text self;
                           MainApplication.return_bound :=
                             MainApplication.return_bound self |};
                 wdw_tasks := None |}.
Proof.
  intros (Happ & Hwdw & Hlive & Hquit & Halive) Hf.
  destruct (send_message_spec (MainApplication.cnv_chat self)
              "Another day, another dollar" true Hf) as [r1 H1].
  pose proof (send_message_fresh _ _ _ _ Hf H1) as Hf1.
  match type of H1 with _ = Some ?a => set (c1 := a) in * end.
  destruct (send_message_spec c1 "Alright, I'll see ya tomorrow" true Hf1)
    as [r2 H2].
  match type of H2 with _ = Some ?a => set (c2 := a) in * end.
  exists c1, c2. split; [exact H1|]. split; [exact H2|].
  destruct p as [dj bg wm alive q app wdw].
  cbn in Happ, Hwdw, Hquit, Halive. subst app wdw q alive.
  destruct window as [tl wapp lbl db]. cbn in Hlive. subst wapp.
  unfold dispatch, end_tasks, end_day.
  cbn [quit root_alive wdw_tasks orb negb TaskWindow.app set_wdw_tasks
         main_app set_root_wm set_entry set_cnv_chat set_main_app
         MainApplication.cnv_chat data_json mainbg_png root_wm
         MainApplication.tasks MainApplication.entry_text
         MainApplication.return_bound MainApplication.entry_enabled
         TaskWindow.task_list TaskWindow.labels].
  rewrite H1, H2. reflexivity.
Qed.

End Completion.

(** C7, as the code has it: pressing the completion button while the
    checklist hangs on a live MainApplication leaves [rec/data.json] as
    it is, shows the root window again with the entry disabled, sends
    the two farewell messages from the LEFT, puts the exit button on the
    canvas after them and destroys the checklist window; the file is
    removed when the exit button is pressed. *)
Theorem completion_says_farewell :
  forall (P : Tk.Platform) (p : process) (self : MainApplication.t)
         (window : TaskWindow.t),
    checklist_open p self window ->
    fresh (MainApplication.cnv_chat self) ->
    exists p' self' older,
      dispatch p ClickTasksFinished = Some p'
      /\ data_json p' = data_json p
      /\ wdw_tasks p' = None
      /\ root_wm p' = Shown
      /\ main_app p' = Some self'
      /\ MainApplication.entry_enabled self' = false
      /\ transcript (MainApplication.cnv_chat self')
         = transcript (MainApplication.cnv_chat self)
           ++ [(true, Some (Tk.textwrap_fill "Another day, another dollar" 20));
               (true, Some (Tk.textwrap_fill "Alright, I'll see ya tomorrow" 20))]
      /\ Tk.items (ChatCanvas.cnv (MainApplication.cnv_chat self'))
         = older
           ++ [(Tk.next_id (ChatCanvas.cnv (MainApplication.cnv_chat self)) + 4,
                Tk.Window 190 600 (Tk.Button "Exit Program"))]
      /\ map fst older
         = map fst (Tk.items (ChatCanvas.cnv (MainApplication.cnv_chat self)))
           ++ [Tk.next_id (ChatCanvas.cnv (MainApplication.cnv_chat self));
               Tk.next_id (ChatCanvas.cnv (MainApplication.cnv_chat self)) + 1;
               Tk.next_id (ChatCanvas.cnv (MainApplication.cnv_chat self)) + 2;
               Tk.next_id (ChatCanvas.cnv (MainApplication.cnv_chat self)) + 3]
      /\ exists p'',
           dispatch p' ClickExit = Some p''
           /\ data_json p'' = None
           /\ quit p'' = true.
Proof.
  intros P p self window Hopen Hf.
  destruct (end_tasks_spec p self window Hopen Hf) as (c1 & c2 & H1 & H2 & Hrun).
  pose proof (send_message_fresh _ _ _ _ Hf H1) as Hf1.
  destruct (send_message_handles _ _ _ _ Hf H1) as [Hids1 Hnext1].
  destruct (send_message_handles _ _ _ _ Hf1 H2) as [Hids2 Hnext2].
  set (n := Tk.next_id (ChatCanvas.cnv (MainApplication.cnv_chat self))) in *.
  assert (Hn : Tk.next_id (ChatCanvas.cnv c2) = n + 4).
  { rewrite Hnext2, Hnext1. rewrite <- Z.add_assoc. reflexivity. }
  assert (Hbtn : Tk.items (ChatCanvas.cnv (ChatCanvas.exit_btn c2))
                 = Tk.items (ChatCanvas.cnv c2)
                   ++ [(n + 4, Tk.Window 190 600 (Tk.Button "Exit Program"))]).
  { rewrite <- Hn. destruct c2 as [[its nid sr yv] bs]. reflexivity. }
  eexists. eexists. exists (Tk.items (ChatCanvas.cnv c2)).
  split; [exact Hrun|].
  split; [reflexivity|]. split; [reflexivity|]. split; [reflexivity|].
  split; [reflexivity|]. split; [reflexivity|].
  cbv beta iota delta [MainApplication.cnv_chat].
  split.
  { rewrite transcript_exit_btn, (transcript_send _ _ _ _ Hf1 H2),
      (transcript_send _ _ _ _ Hf H1), <- app_assoc. reflexivity. }
  split; [exact Hbtn|].
  split.
  { rewrite Hids2, Hids1, Hnext1, <- app_assoc. f_equal.
    cbn [app]. repeat (apply (f_equal2 (@cons Z)); [lia|]). reflexivity. }
  unfold dispatch.
  cbv beta iota delta [quit root_alive main_app orb negb
                         MainApplication.cnv_chat].
  rewrite Hbtn, existsb_app. simpl existsb. rewrite orb_true_r.
  eexists. split; [reflexivity|].
  unfold exit. destruct (data_json p); split; reflexivity.
Qed.

(** On the stand-in platform: a fresh launch, one task, the empty line.
    The checklist is open over the live application and the file holds
    the task; after the completion button the file still holds it. *)
Lemma completion_keeps_the_file :
  option_map
    (fun p => (option_map TaskWindow.app (wdw_tasks p), data_json p))
    (Demo.session (submit "Buy milk" ++ submit EmptyString))
  = Some (Some true, Some (Json.dump ["Buy milk"]))
  /\ option_map
       (fun p => (wdw_tasks p, data_json p))
       (Demo.session (submit "Buy milk" ++ submit EmptyString
                      ++ [ClickTasksFinished]))
     = Some (None, Some (Json.dump ["Buy milk"])).
Proof.
  split; vm_compute; reflexivity.
Qed.

(** C8, on the stand-in platform: after a fresh launch, one task and the
    empty line, [refresh_cnv] has left no item on the canvas, and the
    list [bubbles] still holds the two greetings and the echoed task. *)
Theorem clear_keeps_the_bubble_list :
  option_map
    (fun p =>
       option_map
         (fun self =>
            (Tk.items (ChatCanvas.cnv (MainApplication.cnv_chat self)),
             ChatCanvas.bubbles (MainApplication.cnv_chat self)))
         (main_app p))
    (Demo.session (submit "Buy milk" ++ submit EmptyString))
  = Some (Some ([],
                [{| ChatBubble.left := true; ChatBubble.i := 1;
                    ChatBubble.bubl_tip := 2 |};
                 {| ChatBubble.left := true; ChatBubble.i := 3;
                    ChatBubble.bubl_tip := 4 |};
                 {| ChatBubble.left := false; ChatBubble.i := 5;
                    ChatBubble.bubl_tip := 6 |}])).
Proof.
  vm_compute. reflexivity.
Qed.

(** ** The theorems at work on the stand-in platform *)

Lemma empty_line_completes_witness :
  capturing Demo.greeted Demo.listening
  /\ fresh (MainApplication.cnv_chat Demo.listening)
  /\ Forall (fun line => line <> EmptyString) ["Buy milk"; "Walk dog"]
  /\ exists p' self',
       mainloop (P := Demo.platform) Demo.greeted
         (flat_map submit ["Buy milk"; "Walk dog"] ++ submit EmptyString)
       = Some p'
       /\ main_app p' = Some self'
       /\ workflow_state self' = COMPLETE
       /\ option_map TaskWindow.task_list (wdw_tasks p')
          = Some ["Buy milk"; "Walk dog"].
Proof.
  assert (Hc : capturing Demo.greeted Demo.listening) by (repeat split).
  assert (Hf : fresh (MainApplication.cnv_chat Demo.listening))
    by (split; constructor).
  assert (Hl : Forall (fun line => line <> EmptyString) ["Buy milk"; "Walk dog"])
    by (repeat constructor; discriminate).
  split; [exact Hc|]. split; [exact Hf|]. split; [exact Hl|].
  destruct (empty_line_completes Demo.platform Demo.greeted Demo.listening
              ["Buy milk"; "Walk dog"] Hc Hf Hl)
    as (p' & self' & Hrun & Happ & Hstate & _ & _ & Hwdw & _).
  exists p', self'. rewrite Hwdw. auto.
Defined.

Lemma lines_are_echoed_and_collected_witness :
  capturing Demo.greeted Demo.listening
  /\ fresh (MainApplication.cnv_chat Demo.listening)
  /\ Forall (fun line => line <> EmptyString) ["Buy milk"; "Buy milk"]
  /\ exists self',
       mainloop (P := Demo.platform) Demo.greeted
         (flat_map submit ["Buy milk"; "Buy milk"])
       = Some (set_main_app Demo.greeted self')
       /\ MainApplication.tasks self' = ["Buy milk"; "Buy milk"]
       /\ transcript (MainApplication.cnv_chat self')
          = [(false, Some "Buy milk"); (false, Some "Buy milk")].
Proof.
  assert (Hc : capturing Demo.greeted Demo.listening) by (repeat split).
  assert (Hf : fresh (MainApplication.cnv_chat Demo.listening))
    by (split; constructor).
  assert (Hl : Forall (fun line => line <> EmptyString) ["Buy milk"; "Buy milk"])
    by (repeat constructor; discriminate).
  split; [exact Hc|]. split; [exact Hf|]. split; [exact Hl|].
  destruct (lines_are_echoed_and_collected Demo.platform Demo.greeted
              Demo.listening ["Buy milk"; "Buy milk"] Hc Hf Hl)
    as [(self' & Hrun & _ & Htasks & Htr) _].
  exists self'. auto.
Defined.

Lemma tasks_keep_the_typed_text_witness :
  capturing Demo.greeted Demo.listening
  /\ fresh (MainApplication.cnv_chat Demo.listening)
  /\ "Buy milk and walk the dog today" <> EmptyString
  /\ Demo.fill "Buy milk and walk the dog today" 20
     = append "Buy milk and walk" (String Demo.newline "the dog today")
  /\ exists self' p'',
       mainloop (P := Demo.platform) Demo.greeted
         (submit "Buy milk and walk the dog today")
       = Some (set_main_app Demo.greeted self')
       /\ MainApplication.tasks self' = ["Buy milk and walk the dog today"]
       /\ transcript (MainApplication.cnv_chat self')
          = [(false,
              Some (append "Buy milk and walk"
                      (String Demo.newline "the dog today")))]
       /\ mainloop (P := Demo.platform) (set_main_app Demo.greeted self')
            (submit EmptyString) = Some p''
       /\ data_json p'' = Some (Json.dump ["Buy milk and walk the dog today"]).
Proof.
  assert (Hc : capturing Demo.greeted Demo.listening) by (repeat split).
  assert (Hf : fresh (MainApplication.cnv_chat Demo.listening))
    by (split; constructor).
  assert (Hl : "Buy milk and walk the dog today" <> EmptyString)
    by discriminate.
  split; [exact Hc|]. split; [exact Hf|]. split; [exact Hl|].
  split; [reflexivity|].
  destruct (tasks_keep_the_typed_text Demo.platform Demo.greeted
              Demo.listening "Buy milk and walk the dog today" Hc Hf Hl)
    as (self' & p'' & Hrun & Htasks & Htr & Hrun' & Hdata & _).
  exists self', p''. auto.
Defined.

Lemma launch_resumes_or_starts_fresh_witness :
  Json.load (Json.dump ["Buy milk"]) = Some ["Buy milk"]
  /\ exists p,
       main (P := Demo.platform) (Some (Json.dump ["Buy milk"])) true = Some p
       /\ root_wm p = Withdrawn
       /\ main_app p = None
       /\ option_map TaskWindow.labels (wdw_tasks p) = Some ["Buy milk"].
Proof.
  assert (Hload : Json.load (Json.dump ["Buy milk"]) = Some ["Buy milk"])
    by reflexivity.
  split; [exact Hload|].
  destruct (launch_resumes_or_starts_fresh Demo.platform
              (Json.dump ["Buy milk"]) ["Buy milk"] true Hload)
    as [(p & Hmain & Hwm & Happ & Hwdw & _) _].
  exists p. rewrite Hwdw. auto.
Defined.

Lemma new_bubble_text_and_anchor_witness :
  fresh ChatCanvas.init
  /\ exists parent temp after,
       ChatBubble.init (P := Demo.platform) (ChatCanvas.cnv ChatCanvas.init)
         (Demo.fill "Walk dog" 20) false = Some (parent, temp)
       /\ Tk.find parent (ChatBubble.i temp)
          = Some (Tk.Window 350 500 (Tk.Frame "Walk dog"))
       /\ ChatCanvas.send_message (P := Demo.platform) ChatCanvas.init
            "Walk dog" false = Some after
       /\ ChatCanvas.bubbles after = [temp].
Proof.
  assert (Hf : fresh ChatCanvas.init) by (split; constructor).
  split; [exact Hf|].
  destruct (new_bubble_text_and_anchor Demo.platform ChatCanvas.init
              "Walk dog" false Hf)
    as (parent & temp & after & Hinit & Hfind & _ & Hsend & Hb & _).
  exists parent, temp, after. auto.
Defined.

Lemma completion_says_farewell_witness :
  checklist_open Demo.checking Demo.finished Demo.checklist
  /\ fresh (MainApplication.cnv_chat Demo.finished)
  /\ exists p' self',
       dispatch (P := Demo.platform) Demo.checking ClickTasksFinished = Some p'
       /\ data_json p' = Some (Json.dump ["Buy milk"])
       /\ wdw_tasks p' = None
       /\ root_wm p' = Shown
       /\ main_app p' = Some self'
       /\ transcript (MainApplication.cnv_chat self')
          = [(true, Some (Demo.fill "Another day, another dollar" 20));
             (true, Some (Demo.fill "Alright, I'll see ya tomorrow" 20))].
Proof.
  assert (Ho : checklist_open Demo.checking Demo.finished Demo.checklist)
    by (repeat split).
  assert (Hf : fresh (MainApplication.cnv_chat Demo.finished))
    by (split; constructor).
  split; [exact Ho|]. split; [exact Hf|].
  destruct (completion_says_farewell Demo.platform Demo.checking
              Demo.finished Demo.checklist Ho Hf)
    as (p' & self' & older & Hrun & Hdata & Hwdw & Hwm & Happ & _ & Htr & _).
  exists p', self'. auto 10.
Defined.

(** * Further properties *)

(** ** [send_message] on any canvas *)

Section Robust.
Context {P : Tk.Platform}.
Import Tk.

Lemma has_window_move_in id dx dy its :
  has_window its -> has_window (move_in id dx dy its).
Proof.
  intros (x & y & w & Hin). apply in_map_iff in Hin.
  destruct Hin as ([k it] & Hit & Hin). simpl in Hit. subst it.
  destruct (Z.eqb_spec k id) as [Hk|Hk].
  - exists (x + dx), (y + dy), w. apply in_map_iff.
    exists (k, Window (x + dx) (y + dy) w). split; [reflexivity|].
    unfold move_in. apply in_map_iff. exists (k, Window x y w).
    split; [|assumption]. simpl.
    destruct (Z.eqb_spec k id); [reflexivity|contradiction].
  - exists x, y, w. apply in_map_iff.
    exists (k, Window x y w). split; [reflexivity|].
    unfold move_in. apply in_map_iff. exists (k, Window x y w).
    split; [|assumption]. simpl.
    destruct (Z.eqb_spec k id); [contradiction|reflexivity].
Qed.

Lemma has_window_shift_all dy bs : forall its,
  has_window its -> has_window (shift_all dy bs its).
Proof.
  induction bs as [|b bs IH]; intros its H; simpl; [exact H|].
  apply IH. do 2 apply has_window_move_in. exact H.
Qed.

Lemma is_button_move_in id dx dy its :
  existsb is_button (move_in id dx dy its) = existsb is_button its.
Proof.
  induction its as [|[k it] its IH]; simpl; [reflexivity|].
  rewrite IH. f_equal.
  destruct (k =? id); [|reflexivity].
  destruct it as [x y [text|text]|cs]; reflexivity.
Qed.

Lemma is_button_shift_all dy bs : forall its,
  existsb is_button (shift_all dy bs its) = existsb is_button its.
Proof.
  induction bs as [|b bs IH]; intros its; simpl; [reflexivity|].
  rewrite IH, !is_button_move_in. reflexivity.
Qed.

Lemma bbox_of_has_window its :
  has_window its -> exists b, bbox_of None (map snd its) = Some b.
Proof.
  intros (x & y & w & Hin).
  exact (bbox_of_visible None _ _ Hin (window_visible x y w)).
Qed.

(** The canvas after a send, whatever handles were in use before. *)
Lemma send_message_shape self message left :
  exists b0 x1 y1 x2 y2,
    bbox_of None (map snd (sent_items self message left b0))
    = Some (x1, y1, x2, y2)
    /\ ChatCanvas.send_message self message left
       = Some
           {| ChatCanvas.cnv :=
                {| items := sent_items self message left b0;
                   next_id := next_id (ChatCanvas.cnv self) + 2;
                   scrollregion := Some (x1, y1 - 300, x2, y2);
                   yview_bottom := true |};
              ChatCanvas.bubbles :=
                ChatCanvas.bubbles self
                ++ [{| ChatBubble.left := left;
                       ChatBubble.i := next_id (ChatCanvas.cnv self);
                       ChatBubble.bubl_tip := next_id (ChatCanvas.cnv self) + 1 |}] |}.
Proof.
  destruct self as [[its n sr yv] bs].
  unfold sent_items.
  cbv beta iota delta [ChatCanvas.cnv ChatCanvas.bubbles items next_id].
  set (text := textwrap_fill message 20).
  set (W := Window (pad_x left) ChatBubble.BUBBLE_PAD_Y (Frame text)).
  assert (Hbox : forall tail nid sr' yv',
             Forall (fun p => fst p <> n) tail ->
             bbox {| items := its ++ (n, W) :: tail; next_id := nid;
                     scrollregion := sr'; yview_bottom := yv' |} n
             = bbox_of None
                 (map snd (filter (fun p => fst p =? n) its) ++ [W])).
  { intros tail nid sr' yv' Htail. unfold bbox. cbn [items].
    rewrite filter_app. cbn [filter fst]. rewrite Z.eqb_refl.
    replace (filter (fun p => fst p =? n) tail) with (@nil (Z * item)).
    - rewrite map_app. reflexivity.
    - symmetry. induction Htail as [|q tail Hq _ IH]; simpl; [reflexivity|].
      destruct (Z.eqb_spec (fst q) n); [contradiction|assumption]. }
  destruct (bbox_of_visible None
              (map snd (filter (fun p => fst p =? n) its) ++ [W]) W)
    as [b0 Hb0].
  { apply in_or_app. right. left. reflexivity. }
  { apply window_visible. }
  exists b0.
  set (final :=
         let dy := let '(_, y1, _, y2) := b0 in y1 - y2 in
         move_in (n + 1) 0 dy
           (move_in n 0 dy
              (shift_all (2 * dy) bs
                 (its ++ [(n, W);
                          (n + 1, Polygon (ChatBubble.triangle left b0))])))).
  assert (Hw : has_window final).
  { unfold final. cbv zeta.
    do 2 apply has_window_move_in. apply has_window_shift_all.
    exists (pad_x left), ChatBubble.BUBBLE_PAD_Y, (Frame text).
    rewrite map_app. apply in_or_app. right. left. reflexivity. }
  destruct (bbox_of_has_window final Hw) as [[[[x1 y1] x2] y2] Hall].
  exists x1, y1, x2, y2. split; [exact Hall|].
  unfold ChatCanvas.send_message, ChatBubble.init, ChatBubble.draw_triangle.
  fold text.
  assert (Hcreate :
            (if left
             then create_window
                    {| items := its; next_id := n; scrollregion := sr;
                       yview_bottom := yv |}
                    ChatBubble.L_BUBBLE_PAD_X ChatBubble.BUBBLE_PAD_Y (Frame text)
             else create_window
                    {| items := its; next_id := n; scrollregion := sr;
                       yview_bottom := yv |}
                    ChatBubble.R_BUBBLE_PAD_X ChatBubble.BUBBLE_PAD_Y (Frame text))
            = ({| items := its ++ [(n, W)]; next_id := n + 1;
                  scrollregion := sr; yview_bottom := yv |}, n)).
  { unfold W, pad_x. destruct left; reflexivity. }
  cbn [ChatCanvas.cnv ChatCanvas.bubbles].
  rewrite Hcreate.
  rewrite (Hbox [] (n + 1) sr yv) by constructor.
  rewrite Hb0.
  unfold create_polygon, create. cbn [items next_id scrollregion yview_bottom].
  rewrite <- app_assoc. cbn [app ChatBubble.i ChatBubble.bubl_tip].
  rewrite (Hbox [(n + 1, Polygon (ChatBubble.triangle left b0))]);
    [|constructor; [simpl; lia|constructor]].
  rewrite Hb0.
  unfold final in Hall.
  destruct b0 as [[[bx1 by1] bx2] by2].
  unfold move, with_items.
  rewrite fold_shift_items.
  destruct (fold_shift_rest (2 * (by1 - by2)) bs
              {| items := its ++ [(n, W);
                                  (n + 1, Polygon (ChatBubble.triangle left (bx1, by1, bx2, by2)))];
                 next_id := n + 1 + 1; scrollregion := sr; yview_bottom := yv |})
    as (Hn & Hsr & Hyv).
  cbn [items next_id scrollregion yview_bottom] in *.
  rewrite Hn, Hsr, Hyv.
  unfold ChatCanvas.update_scrollregion, bbox_all.
  cbn [ChatCanvas.cnv ChatCanvas.bubbles items next_id].
  cbv zeta in Hall. rewrite Hall.
  replace (n + 1 + 1) with (n + 2) by lia.
  reflexivity.
Qed.

End Robust.

Section Regions.
Context {P : Tk.Platform}.
Import Tk.

Lemma sent_items_ids self message left b0 :
  map fst (sent_items self message left b0)
  = map fst (items (ChatCanvas.cnv self))
    ++ [next_id (ChatCanvas.cnv self); next_id (ChatCanvas.cnv self) + 1].
Proof.
  unfold sent_items. cbv zeta.
  rewrite !move_in_ids, shift_all_ids, map_app. reflexivity.
Qed.

Lemma sent_items_buttons self message left b0 :
  existsb is_button (sent_items self message left b0)
  = existsb is_button (items (ChatCanvas.cnv self)).
Proof.
  unfold sent_items. cbv zeta.
  rewrite !is_button_move_in, is_button_shift_all, existsb_app.
  simpl. apply orb_false_r.
Qed.

Lemma box_within_refl a : box_within a a.
Proof. destruct a as [[[a1 a2] a3] a4]. simpl. lia. Qed.

Lemma box_within_trans a b c :
  box_within a b -> box_within b c -> box_within a c.
Proof.
  destruct a as [[[a1 a2] a3] a4], b as [[[b1 b2] b3] b4],
    c as [[[c1 c2] c3] c4]. simpl. lia.
Qed.

Lemma box_within_union a b :
  box_within a (box_union a b) /\ box_within b (box_union a b).
Proof.
  destruct a as [[[a1 a2] a3] a4], b as [[[b1 b2] b3] b4]. simpl. lia.
Qed.

(** The union [Canvas.bbox] computes contains every box it was made of. *)
Lemma bbox_of_covers its : forall acc u,
  bbox_of acc its = Some u ->
  (forall a, acc = Some a -> box_within a u)
  /\ (forall it, In it its -> box_visible (item_bbox it) = true ->
                 box_within (item_bbox it) u).
Proof.
  induction its as [|k its IH]; intros acc u Hu; simpl in Hu.
  - split; [|contradiction].
    intros a Ha. rewrite Ha in Hu. injection Hu as <-. apply box_within_refl.
  - destruct (box_visible (item_bbox k)) eqn:Hk.
    + destruct (IH _ _ Hu) as [Hacc Hrest].
      specialize (Hacc _ eq_refl).
      split.
      * intros a Ha. subst acc.
        eapply box_within_trans; [|exact Hacc].
        apply box_within_union.
      * intros it [<-|Hin] Hv; [|auto].
        eapply box_within_trans; [|exact Hacc].
        destruct acc as [a|]; [apply box_within_union|apply box_within_refl].
    + destruct (IH _ _ Hu) as [Hacc Hrest].
      split; [exact Hacc|].
      intros it [<-|Hin] Hv; [congruence|auto].
Qed.

Lemma bbox_of_none its :
  bbox_of None its = None
  <-> Forall (fun it => box_visible (item_bbox it) = false) its.
Proof.
  split.
  - intros Hnone. apply Forall_forall. intros it Hin.
    destruct (box_visible (item_bbox it)) eqn:Hv; [|reflexivity].
    destruct (bbox_of_visible None its it Hin Hv) as [b Hb]. congruence.
  - induction 1 as [|it its Hit _ IH]; simpl; [reflexivity|].
    rewrite Hit. exact IH.
Qed.

End Regions.

(** X1: [send_message] never raises, whatever the canvas holds and
    whatever handles its list of bubbles refers to: it appends one bubble
    whose body and stem take the next two handles, and puts these two
    items, and nothing else, on top of the display list. *)
Theorem send_message_never_raises :
  forall (P : Tk.Platform) (self : ChatCanvas.t) (message : string)
         (left : bool),
  exists after,
    ChatCanvas.send_message self message left = Some after
    /\ ChatCanvas.bubbles after
       = ChatCanvas.bubbles self
         ++ [{| ChatBubble.left := left;
                ChatBubble.i := Tk.next_id (ChatCanvas.cnv self);
                ChatBubble.bubl_tip := Tk.next_id (ChatCanvas.cnv self) + 1 |}]
    /\ map fst (Tk.items (ChatCanvas.cnv after))
       = map fst (Tk.items (ChatCanvas.cnv self))
         ++ [Tk.next_id (ChatCanvas.cnv self);
             Tk.next_id (ChatCanvas.cnv self) + 1]
    /\ Tk.next_id (ChatCanvas.cnv after) = Tk.next_id (ChatCanvas.cnv self) + 2.
Proof.
  intros P self message left.
  destruct (send_message_shape self message left)
    as (b0 & x1 & y1 & x2 & y2 & _ & Hsend).
  eexists. split; [exact Hsend|].
  split; [reflexivity|]. split; [|reflexivity].
  apply sent_items_ids.
Qed.

(** X2: after every [send_message] the scroll region is the box of all
    the items of the canvas with 300 units added above, the view is at
    the bottom, and every item that has a box lies inside that box. *)
Theorem scrollregion_covers_the_canvas :
  forall (P : Tk.Platform) (self : ChatCanvas.t) (message : string)
         (left : bool),
  exists after x1 y1 x2 y2,
    ChatCanvas.send_message self message left = Some after
    /\ Tk.bbox_all (ChatCanvas.cnv after) = Some (x1, y1, x2, y2)
    /\ Tk.scrollregion (ChatCanvas.cnv after) = Some (x1, y1 - 300, x2, y2)
    /\ Tk.yview_bottom (ChatCanvas.cnv after) = true
    /\ forall id it,
         In (id, it) (Tk.items (ChatCanvas.cnv after)) ->
         Tk.box_visible (Tk.item_bbox it) = true ->
         box_within (Tk.item_bbox it) (x1, y1, x2, y2)
         /\ box_within (Tk.item_bbox it) (x1, y1 - 300, x2, y2).
Proof.
  intros P self message left.
  destruct (send_message_shape self message left)
    as (b0 & x1 & y1 & x2 & y2 & Hall & Hsend).
  eexists. exists x1, y1, x2, y2.
  split; [exact Hsend|]. split; [exact Hall|].
  split; [reflexivity|]. split; [reflexivity|].
  intros id it Hin Hv.
  destruct (bbox_of_covers _ _ _ Hall) as [_ Hcover].
  assert (Hw : box_within (Tk.item_bbox it) (x1, y1, x2, y2)).
  { apply Hcover; [|exact Hv].
    apply in_map_iff. exists (id, it). split; [reflexivity|exact Hin]. }
  split; [exact Hw|].
  destruct (Tk.item_bbox it) as [[[a1 a2] a3] a4]. simpl in *. lia.
Qed.

(** X3: [update_scrollregion] raises exactly when no item of the canvas
    has a box, as on the canvas [delete('all')] leaves. *)
Theorem update_scrollregion_raises_on_empty :
  forall (P : Tk.Platform) (self : ChatCanvas.t),
    (ChatCanvas.update_scrollregion self = None
     <-> Forall (fun p => Tk.box_visible (Tk.item_bbox (snd p)) = false)
           (Tk.items (ChatCanvas.cnv self)))
    /\ ChatCanvas.update_scrollregion
         (ChatCanvas.with_cnv self (Tk.delete_all (ChatCanvas.cnv self)))
       = None.
Proof.
  intros P self. split; [|reflexivity].
  unfold ChatCanvas.update_scrollregion, Tk.bbox_all.
  rewrite <- (Forall_map snd
                (fun it => Tk.box_visible (Tk.item_bbox it) = false)).
  rewrite <- bbox_of_none.
  destruct (Tk.bbox_of None (map snd (Tk.items (ChatCanvas.cnv self))))
    as [[[[x1 y1] x2] y2]|]; split; intros H; try discriminate; reflexivity.
Qed.

(** ** Runs of sends *)

Section Runs.
Context {P : Tk.Platform}.
Import Tk.

Lemma pairs_ind (Q : list Z -> Prop) :
  Q [] -> (forall x, Q [x]) -> (forall x y l, Q l -> Q (x :: y :: l)) ->
  forall l, Q l.
Proof.
  intros H0 H1 H2 l.
  assert (H : Q l /\ forall x, Q (x :: l)).
  { induction l as [|y l [IH1 IH2]]; [split; auto|].
    split; [apply IH2|]. intros x. apply H2. exact IH1. }
  apply H.
Qed.

Lemma translate_coords_zero cs : translate_coords 0 0 cs = cs.
Proof.
  induction cs as [|x|x y l IH] using pairs_ind; simpl; [reflexivity..|].
  rewrite IH, !Z.add_0_r. reflexivity.
Qed.

Lemma translate_coords_twice a b cs :
  translate_coords 0 a (translate_coords 0 b cs) = translate_coords 0 (b + a) cs.
Proof.
  induction cs as [|x|x y l IH] using pairs_ind; simpl; [reflexivity..|].
  rewrite IH, !Z.add_0_r, Z.add_assoc. reflexivity.
Qed.

Lemma translate_zero it : translate 0 0 it = it.
Proof.
  destruct it as [x y w|cs]; simpl.
  - rewrite !Z.add_0_r. reflexivity.
  - rewrite translate_coords_zero. reflexivity.
Qed.

Lemma translate_twice a b it :
  translate 0 a (translate 0 b it) = translate 0 (b + a) it.
Proof.
  destruct it as [x y w|cs]; simpl.
  - rewrite !Z.add_0_r, Z.add_assoc. reflexivity.
  - rewrite translate_coords_twice. reflexivity.
Qed.

Lemma translate_triangle left x y w dy :
  translate_coords 0 dy (ChatBubble.triangle left (window_bbox x y w))
  = ChatBubble.triangle left (window_bbox (x + 0) (y + dy) w).
Proof.
  unfold window_bbox, ChatBubble.triangle, translate_coords.
  destruct left;
    repeat (apply (f_equal2 (@cons Z)); [lia|]); reflexivity.
Qed.

Lemma send_message_nodup self message left after :
  fresh self -> NoDup (bubble_ids (ChatCanvas.bubbles self)) ->
  ChatCanvas.send_message self message left = Some after ->
  NoDup (bubble_ids (ChatCanvas.bubbles after)).
Proof.
  intros Hf Hnd Hs.
  destruct (send_message_new self message left after Hf Hs) as (Hb & _).
  rewrite Hb, bubble_ids_app. simpl.
  destruct Hf as [_ Hbelow]. rewrite Forall_forall in Hbelow.
  apply NoDup_app; [exact Hnd| |].
  - repeat constructor; simpl; [|tauto]. intros [H|[]]; lia.
  - intros id Hin [<-|[<-|[]]]; apply Hbelow in Hin; lia.
Qed.

Lemma in_bubble_ids b bs :
  In b bs ->
  In (ChatBubble.i b) (bubble_ids bs)
  /\ In (ChatBubble.bubl_tip b) (bubble_ids bs).
Proof.
  intros Hin. split; apply in_flat_map; exists b; simpl; auto.
Qed.

Lemma send_message_flush self message left after :
  fresh self -> NoDup (bubble_ids (ChatCanvas.bubbles self)) ->
  flush self ->
  ChatCanvas.send_message self message left = Some after ->
  flush after.
Proof.
  intros Hf Hnd Hfl Hs.
  destruct (send_message_new self message left after Hf Hs)
    as (Hb & Hbody & _ & Hstem).
  unfold flush. rewrite Hb. apply Forall_app. split.
  - unfold flush in Hfl. rewrite Forall_forall in Hfl |- *.
    intros b Hin. destruct (Hfl b Hin) as (x & y & w & Hi & Ht).
    destruct (in_bubble_ids b _ Hin) as [Hini Hint].
    exists (x + 0), (y + - (2 * frame_height (textwrap_fill message 20))), w.
    rewrite (send_message_old self message left after _ Hf Hnd Hs Hini), Hi.
    rewrite (send_message_old self message left after _ Hf Hnd Hs Hint), Ht.
    split; [reflexivity|].
    unfold option_map, translate. rewrite translate_triangle. reflexivity.
  - constructor; [|constructor]. do 3 eexists.
    split; [exact Hbody|exact Hstem].
Qed.

Lemma send_all_flush msgs : forall self,
  fresh self -> NoDup (bubble_ids (ChatCanvas.bubbles self)) -> flush self ->
  exists after, send_all self msgs = Some after /\ flush after.
Proof.
  induction msgs as [|m msgs IH]; intros self Hf Hnd Hfl; simpl; [eauto|].
  destruct (send_message_spec self (fst m) (snd m) Hf) as [region Heq].
  pose proof Heq as Heq'. rewrite Heq.
  apply IH.
  - eapply send_message_fresh; eassumption.
  - eapply send_message_nodup; eassumption.
  - eapply send_message_flush; eassumption.
Qed.

Lemma bodies_send self message left after :
  fresh self -> NoDup (bubble_ids (ChatCanvas.bubbles self)) ->
  ChatCanvas.send_message self message left = Some after ->
  bodies after
  = map (option_map
           (translate 0 (- (2 * frame_height (textwrap_fill message 20)))))
      (bodies self)
    ++ [Some (Window (pad_x left)
                (ChatBubble.BUBBLE_PAD_Y - frame_height (textwrap_fill message 20))
                (Frame (textwrap_fill message 20)))].
Proof.
  intros Hf Hnd Hs.
  destruct (send_message_new self message left after Hf Hs)
    as (Hb & Hbody & _ & _).
  unfold bodies. rewrite Hb, map_app, map_map. f_equal.
  - apply map_ext_in. intros b Hin.
    destruct (in_bubble_ids b _ Hin) as [Hini _].
    apply (send_message_old self message left after _ Hf Hnd Hs Hini).
  - unfold map. cbv beta iota delta [ChatBubble.i]. rewrite Hbody. reflexivity.
Qed.

Lemma send_all_bodies msgs : forall self,
  fresh self -> NoDup (bubble_ids (ChatCanvas.bubbles self)) ->
  exists after,
    send_all self msgs = Some after
    /\ bodies after
       = map (option_map (translate 0 (- (2 * total_height msgs)))) (bodies self)
         ++ layout msgs.
Proof.
  induction msgs as [|m msgs IH]; intros self Hf Hnd.
  - exists self. split; [reflexivity|].
    rewrite app_nil_r. symmetry.
    rewrite <- (map_id (bodies self)) at 2. apply map_ext.
    intros [it|]; [|reflexivity]. simpl. rewrite translate_zero. reflexivity.
  - destruct (send_message_spec self (fst m) (snd m) Hf) as [region Heq].
    match type of Heq with _ = Some ?a => set (c1 := a) in * end.
    pose proof (send_message_fresh _ _ _ _ Hf Heq) as Hf1.
    pose proof (send_message_nodup _ _ _ _ Hf Hnd Heq) as Hnd1.
    destruct (IH c1 Hf1 Hnd1) as (after & Hrun & Hbodies).
    exists after. split; [simpl; rewrite Heq; exact Hrun|].
    rewrite Hbodies, (bodies_send _ _ _ _ Hf Hnd Heq), map_app, map_map.
    rewrite <- app_assoc. f_equal.
    + apply map_ext. intros [it|]; [|reflexivity].
      cbn [option_map]. rewrite translate_twice.
      apply f_equal. apply (f_equal (fun d => translate 0 d it)).
      change (total_height (m :: msgs))
        with (frame_height (textwrap_fill (fst m) 20) + total_height msgs).
      lia.
    + cbn [map option_map app translate layout]. rewrite Z.add_0_r.
      apply (f_equal2 (@cons (option item))); [|reflexivity].
      apply f_equal.
      apply (f_equal (fun y => Window (pad_x (snd m)) y
                                 (Frame (textwrap_fill (fst m) 20)))).
      lia.
Qed.

Lemma frame_box_edges x y text :
  bottom_edge (Window x y (Frame text))
  = Some (y - Z.quot (frame_height text) 2 + frame_height text)
  /\ top_edge (Window x y (Frame text))
     = Some (y - Z.quot (frame_height text) 2).
Proof. split; reflexivity. Qed.

Lemma total_height_nonneg msgs : 0 <= total_height msgs.
Proof.
  induction msgs as [|m msgs IH]; simpl; [lia|].
  pose proof (frame_height_pos (textwrap_fill (fst m) 20)). lia.
Qed.

Lemma layout_apart msgs : forall pre older newer post,
  layout msgs = pre ++ Some older :: Some newer :: post ->
  exists yb yt,
    bottom_edge older = Some yb /\ top_edge newer = Some yt /\ yb < yt.
Proof.
  induction msgs as [|m msgs IH]; intros pre older newer post Heq.
  - destruct pre; discriminate.
  - destruct pre as [|e pre].
    + destruct msgs as [|m2 msgs]; [discriminate|].
      cbn [layout app] in Heq.
      assert (Ho : Window (pad_x (snd m))
                     (ChatBubble.BUBBLE_PAD_Y
                      - frame_height (textwrap_fill (fst m) 20)
                      - 2 * total_height (m2 :: msgs))
                     (Frame (textwrap_fill (fst m) 20)) = older)
        by congruence.
      assert (Hn : Window (pad_x (snd m2))
                     (ChatBubble.BUBBLE_PAD_Y
                      - frame_height (textwrap_fill (fst m2) 20)
                      - 2 * total_height msgs)
                     (Frame (textwrap_fill (fst m2) 20)) = newer)
        by congruence.
      subst older newer. clear Heq.
      change (total_height (m2 :: msgs))
        with (frame_height (textwrap_fill (fst m2) 20) + total_height msgs).
      do 2 eexists.
      split; [apply frame_box_edges|]. split; [apply frame_box_edges|].
      pose proof (frame_height_pos (textwrap_fill (fst m) 20)) as H1.
      pose proof (frame_height_pos (textwrap_fill (fst m2) 20)) as H2.
      pose proof (Z.quot_pos (frame_height (textwrap_fill (fst m) 20)) 2) as Q1.
      assert (Q2 : Z.quot (frame_height (textwrap_fill (fst m2) 20)) 2
                   < frame_height (textwrap_fill (fst m2) 20))
        by (apply Z.quot_lt; lia).
      lia.
    + cbn [layout app] in Heq.
      assert (Heq' : layout msgs = pre ++ Some older :: Some newer :: post)
        by congruence.
      exact (IH _ _ _ _ Heq').
Qed.

End Runs.

(** X4: however many messages are sent on a new canvas, the stem of
    every bubble stays the triangle [draw_triangle] gives for the box of
    its body where the body is now. *)
Theorem stems_stay_flush :
  forall (P : Tk.Platform) (history : list (string * bool)),
  exists after,
    send_all ChatCanvas.init history = Some after /\ flush after.
Proof.
  intros P history.
  apply send_all_flush; [apply fresh_init|constructor|constructor].
Qed.

(** X5: a run of sends composes: on a canvas whose handles in use are
    below the next handle and distinct, it translates every body already
    there by twice the total height of the new bubbles and leaves each
    new bubble at the baseline minus its own height minus twice the
    heights of the bubbles sent after it. *)
Theorem runs_of_sends_compose :
  forall (P : Tk.Platform) (self : ChatCanvas.t)
         (msgs : list (string * bool)),
    fresh self ->
    NoDup (bubble_ids (ChatCanvas.bubbles self)) ->
    exists after,
      send_all self msgs = Some after
      /\ bodies after
         = map (option_map (Tk.translate 0 (- (2 * total_height msgs))))
             (bodies self)
           ++ layout msgs.
Proof.
  intros P self msgs Hf Hnd. apply send_all_bodies; assumption.
Qed.

Lemma runs_of_sends_compose_witness :
  fresh ChatCanvas.init
  /\ NoDup (bubble_ids (ChatCanvas.bubbles ChatCanvas.init))
  /\ exists after,
       send_all (P := Demo.platform) ChatCanvas.init
         [("Welcome back!", true); ("Buy milk", false)] = Some after
       /\ bodies after
          = [Some (Tk.Window 90 437 (Tk.Frame "Welcome back!"));
             Some (Tk.Window 350 479 (Tk.Frame "Buy milk"))].
Proof.
  assert (Hf : fresh ChatCanvas.init) by (split; constructor).
  assert (Hnd : NoDup (bubble_ids (ChatCanvas.bubbles ChatCanvas.init)))
    by constructor.
  split; [exact Hf|]. split; [exact Hnd|].
  destruct (runs_of_sends_compose Demo.platform ChatCanvas.init
              [("Welcome back!", true); ("Buy milk", false)] Hf Hnd)
    as (after & Hrun & Hbodies).
  exists after. split; [exact Hrun|]. exact Hbodies.
Defined.

(** X6: after any run of sends on a new canvas the boxes of two
    consecutive bubbles do not meet: the box of the older one ends above
    the line where the box of the newer one begins. *)
Theorem consecutive_bubbles_do_not_overlap :
  forall (P : Tk.Platform) (history : list (string * bool)),
  exists after,
    send_all ChatCanvas.init history = Some after
    /\ forall pre older newer post,
         bodies after = pre ++ Some older :: Some newer :: post ->
         exists yb yt,
           bottom_edge older = Some yb
           /\ top_edge newer = Some yt
           /\ yb < yt.
Proof.
  intros P history.
  destruct (send_all_bodies history ChatCanvas.init fresh_init)
    as (after & Hrun & Hbodies); [constructor|].
  exists after. split; [exact Hrun|].
  intros pre older newer post Heq.
  rewrite Hbodies in Heq. simpl in Heq.
  exact (layout_apart history _ _ _ _ Heq).
Qed.

(** ** The process over whole runs *)

Ltac unchanged :=
  let H := fresh in intros H; injection H as <-; assumption.

Section Runs_of_events.
Context {P : Tk.Platform}.

Lemma dispatch_stopped p e : stopped p -> dispatch p e = Some p.
Proof.
  intros [Hq|Ha]; unfold dispatch; rewrite ?Hq, ?Ha;
    [reflexivity|rewrite orb_true_r; reflexivity].
Qed.

Lemma mainloop_stopped events : forall p,
  stopped p -> mainloop p events = Some p.
Proof.
  induction events as [|e events IH]; intros p Hs; simpl; [reflexivity|].
  rewrite (dispatch_stopped p e Hs). apply IH. exact Hs.
Qed.

Lemma send_message_buttons self message left after :
  ChatCanvas.send_message self message left = Some after ->
  existsb is_button (Tk.items (ChatCanvas.cnv after))
  = existsb is_button (Tk.items (ChatCanvas.cnv self)).
Proof.
  intros Hs.
  destruct (send_message_shape self message left)
    as (b0 & x1 & y1 & x2 & y2 & _ & Heq).
  rewrite Heq in Hs.
  apply (f_equal (fun o => match o with Some a => a | None => after end)) in Hs.
  subst after. apply sent_items_buttons.
Qed.

Lemma end_tasks_closes p p' :
  end_tasks p = Some p' -> wdw_tasks p' = None.
Proof.
  unfold end_tasks.
  destruct (wdw_tasks p) as [w|]; [|discriminate].
  destruct (if TaskWindow.app w then Some p else MainApplication_init p)
    as [p1|]; [|discriminate].
  destruct (end_day _) as [p2|]; [|discriminate].
  intros H. apply (f_equal (fun o => match o with Some a => a | None => p' end)) in H.
  subst p'. reflexivity.
Qed.

Lemma input_tasks_synced p self p' :
  main_app p = Some self ->
  synced p -> input_tasks p = Some p' -> synced p'.
Proof.
  intros Happ Hsync. unfold input_tasks. rewrite Happ.
  destruct (String.length (MainApplication.entry_text self) =? 0)%nat.
  - destruct p as [dj bg wm alive q app wdw]. cbn in Happ. subst app.
    unfold create_list, refresh_cnv, TaskWindow_init, save_state.
    cbn [main_app set_wdw_tasks set_data_json set_main_app set_root_wm
           set_cnv_chat].
    intros H.
    apply (f_equal (fun o => match o with Some a => a | None => p' end)) in H.
    subst p'. intros w Hw. cbn in Hw.
    apply (f_equal (fun o => match o with Some a => a | None => w end)) in Hw.
    subst w. split; [reflexivity|].
    intros self' Hself'. cbn in Hself'.
    apply (f_equal (fun o => match o with Some a => a | None => self' end)) in Hself'.
    subst self'. reflexivity.
  - destruct (ChatCanvas.send_message (MainApplication.cnv_chat self)
                (MainApplication.entry_text self) false) as [c|] eqn:Hsend;
      [|discriminate].
    intros H.
    apply (f_equal (fun o => match o with Some a => a | None => p' end)) in H.
    subst p'. intros w Hw.
    destruct p as [dj bg wm alive q app wdw]. cbn in Happ, Hw. subst app wdw.
    destruct (Hsync w eq_refl) as [Hfile Hbtn].
    split; [exact Hfile|].
    intros self' Hself'. cbn in Hself'.
    apply (f_equal (fun o => match o with Some a => a | None => self' end)) in Hself'.
    subst self'. unfold has_button. cbn [MainApplication.cnv_chat].
    rewrite (send_message_buttons _ _ _ _ Hsend).
    exact (Hbtn self eq_refl).
Qed.

Lemma dispatch_synced p e p' :
  synced p -> dispatch p e = Some p' -> synced p'.
Proof.
  intros Hsync. unfold dispatch.
  destruct (quit p || negb (root_alive p)); [unchanged|].
  destruct e.
  - destruct (main_app p) as [self|] eqn:Happ; [|unchanged].
    destruct (MainApplication.entry_enabled self); [|unchanged].
    intros H.
    apply (f_equal (fun o => match o with Some a => a | None => p' end)) in H.
    subst p'. intros w Hw.
    destruct p as [dj bg wm alive q app wdw]. cbn in Happ, Hw. subst app wdw.
    destruct (Hsync w eq_refl) as [Hfile Hbtn].
    split; [exact Hfile|]. intros self' Hself'. cbn in Hself'.
    apply (f_equal (fun o => match o with Some a => a | None => self' end)) in Hself'.
    subst self'. exact (Hbtn self eq_refl).
  - destruct (main_app p) as [self|] eqn:Happ; [|unchanged].
    destruct (MainApplication.entry_enabled self
              && MainApplication.return_bound self); [|unchanged].
    apply input_tasks_synced with (self := self); assumption.
  - destruct (wdw_tasks p); [|unchanged].
    intros H w Hw. rewrite (end_tasks_closes _ _ H) in Hw. discriminate.
  - destruct (main_app p) as [self|] eqn:Happ; [|unchanged].
    destruct (existsb is_button _) eqn:Hbtn; [|unchanged].
    intros H.
    apply (f_equal (fun o => match o with Some a => a | None => p' end)) in H.
    subst p'. intros w Hw.
    assert (Hw0 : wdw_tasks p = Some w).
    { unfold exit in Hw. destruct (data_json p); exact Hw. }
    destruct (Hsync w Hw0) as [_ Hno].
    specialize (Hno self Happ). unfold has_button in Hno. congruence.
  - destruct (wdw_tasks p) as [w0|] eqn:Hw0; [|unchanged].
    intros H.
    apply (f_equal (fun o => match o with Some a => a | None => p' end)) in H.
    subst p'. intros w Hw.
    destruct (TaskWindow.destroy_bound w0); [|discriminate Hw].
    unfold kill_root in Hw. cbn [andb root_alive set_wdw_tasks] in Hw.
    destruct (root_alive p); discriminate Hw.
Qed.

Lemma mainloop_synced events : forall p p',
  synced p -> mainloop p events = Some p' -> synced p'.
Proof.
  induction events as [|e events IH]; intros p p' Hsync; simpl.
  - unchanged.
  - destruct (dispatch p e) as [p1|] eqn:Hd; [|discriminate].
    apply IH. exact (dispatch_synced _ _ _ Hsync Hd).
Qed.

Lemma gather_info_keeps p p' :
  gather_info p = Some p' ->
  wdw_tasks p' = wdw_tasks p /\ data_json p' = data_json p
  /\ mainbg_png p' = mainbg_png p
  /\ exists self self',
       main_app p = Some self /\ main_app p' = Some self'
       /\ MainApplication.tasks self' = MainApplication.tasks self.
Proof.
  unfold gather_info.
  destruct (main_app p) as [self|] eqn:Happ; [|discriminate].
  destruct (ChatCanvas.send_message _ _ _) as [c1|]; [|discriminate].
  destruct (ChatCanvas.send_message _ _ _) as [c2|]; [|discriminate].
  intros H.
  apply (f_equal (fun o => match o with Some a => a | None => p' end)) in H.
  subst p'. repeat split. exists self. eexists. repeat split.
Qed.




(** A run in which no handler raises is the run of [mainloop]. *)
Lemma run_mainloop events : forall p p',
  mainloop p events = Some p' -> run p events = p'.
Proof.
  induction events as [|e events IH]; intros p p'; simpl.
  - intros [= <-]. reflexivity.
  - destruct (dispatch p e) as [p1|] eqn:Hd; [|discriminate].
    intros H. unfold run. cbn [fold_left]. unfold handle at 2.
    rewrite Hd. apply IH. exact H.
Qed.

End Runs_of_events.



Section Tasks.
Context {P : Tk.Platform}.

Lemma end_day_keeps p p' :
  end_day p = Some p' ->
  exists self self',
    main_app p = Some self /\ main_app p' = Some self'
    /\ MainApplication.tasks self' = MainApplication.tasks self
    /\ MainApplication.entry_enabled self' = false
    /\ wdw_tasks p' = wdw_tasks p /\ data_json p' = data_json p
    /\ quit p' = quit p /\ root_alive p' = root_alive p
    /\ root_wm p' = Shown.
Proof.
  unfold end_day.
  destruct (main_app p) as [self|] eqn:Happ; [|discriminate].
  destruct (ChatCanvas.send_message _ _ _) as [c1|]; [|discriminate].
  destruct (ChatCanvas.send_message _ _ _) as [c2|]; [|discriminate].
  intros H. injection H as <-.
  exists self. eexists. repeat split.
Qed.

Lemma end_tasks_keeps p p' :
  end_tasks p = Some p' ->
  exists self',
    main_app p' = Some self'
    /\ MainApplication.entry_enabled self' = false
    /\ (MainApplication.tasks self' = []
        \/ exists self,
             main_app p = Some self
             /\ MainApplication.tasks self' = MainApplication.tasks self).
Proof.
  unfold end_tasks.
  destruct (wdw_tasks p) as [w|]; [|discriminate].
  destruct (TaskWindow.app w).
  - destruct (end_day _) as [p2|] eqn:Hd; [|discriminate].
    intros H. injection H as <-.
    destruct (end_day_keeps _ _ Hd)
      as (self & self' & Happ & Happ' & Htasks & Hen & _).
    exists self'. split; [exact Happ'|]. split; [exact Hen|].
    right. exists self. split; [exact Happ|exact Htasks].
  - unfold MainApplication_init.
    destruct (mainbg_png p); [|discriminate].
    destruct (end_day _) as [p2|] eqn:Hd; [|discriminate].
    intros H. injection H as <-.
    destruct (end_day_keeps _ _ Hd)
      as (self & self' & Happ & Happ' & Htasks & Hen & _).
    exists self'. split; [exact Happ'|]. split; [exact Hen|].
    left. rewrite Htasks. cbn in Happ. injection Happ as <-. reflexivity.
Qed.

Lemma length_not_zero (s : string) :
  (String.length s =? 0)%nat = false -> s <> EmptyString.
Proof. destruct s; [discriminate|intros _; discriminate]. Qed.

Lemma dispatch_no_empty_task p e p' :
  no_empty_task p -> dispatch p e = Some p' -> no_empty_task p'.
Proof.
  intros Hk. unfold dispatch.
  destruct (quit p || negb (root_alive p)); [unchanged|].
  destruct e.
  - destruct (main_app p) as [self|] eqn:Happ; [|unchanged].
    destruct (MainApplication.entry_enabled self); [|unchanged].
    intros H. injection H as <-. intros self' Hself'.
    cbn in Hself'. injection Hself' as <-. exact (Hk self Happ).
  - destruct (main_app p) as [self|] eqn:Happ; [|unchanged].
    destruct (MainApplication.entry_enabled self
              && MainApplication.return_bound self); [|unchanged].
    unfold input_tasks. rewrite Happ.
    destruct (String.length (MainApplication.entry_text self) =? 0)%nat eqn:Hlen.
    + unfold create_list, refresh_cnv. rewrite Happ.
      cbn [main_app TaskWindow_init save_state set_data_json set_wdw_tasks
             set_main_app set_root_wm].
      rewrite Happ.
      cbn [main_app set_main_app set_root_wm].
      intros H. injection H as <-. intros self' Hself'.
      cbn in Hself'. injection Hself' as <-. exact (Hk self Happ).
    + destruct (ChatCanvas.send_message _ _ _) as [c|]; [|discriminate].
      intros H. injection H as <-. intros self' Hself'.
      cbn in Hself'. injection Hself' as <-.
      cbn [MainApplication.tasks]. apply Forall_app. split.
      * exact (Hk self Happ).
      * constructor; [|constructor]. exact (length_not_zero _ Hlen).
  - destruct (wdw_tasks p); [|unchanged].
    intros H. destruct (end_tasks_keeps _ _ H)
      as (self' & Happ' & _ & [Hnil|(self & Happ & Htasks)]);
      intros self'' Hself''; rewrite Happ' in Hself''; injection Hself'' as <-.
    + rewrite Hnil. constructor.
    + rewrite Htasks. exact (Hk self Happ).
  - destruct (main_app p) as [self|] eqn:Happ; [|unchanged].
    destruct (existsb is_button _); [|unchanged].
    intros H. injection H as <-. intros self' Hself'.
    apply (Hk self'). unfold exit in Hself'.
    destruct (data_json p); exact Hself'.
  - destruct (wdw_tasks p) as [w0|]; [|unchanged].
    intros H. injection H as <-. intros self' Hself'.
    apply (Hk self').
    destruct (TaskWindow.destroy_bound w0); [|exact Hself'].
    unfold kill_root in Hself'. cbn [andb root_alive set_wdw_tasks] in Hself'.
    destruct (root_alive p); exact Hself'.
Qed.

Lemma mainloop_no_empty_task events : forall p p',
  no_empty_task p -> mainloop p events = Some p' -> no_empty_task p'.
Proof.
  induction events as [|e events IH]; intros p p' Hk; simpl.
  - unchanged.
  - destruct (dispatch p e) as [p1|] eqn:Hd; [|discriminate].
    apply IH. exact (dispatch_no_empty_task _ _ _ Hk Hd).
Qed.

Lemma main_no_empty_task data_file mainbg p :
  main data_file mainbg = Some p -> no_empty_task p.
Proof.
  unfold main. destruct data_file as [f|].
  - destruct (Json.load f) as [tasks|]; [|discriminate].
    intros H. injection H as <-. intros self Hself. discriminate Hself.
  - destruct (MainApplication_init _) as [p1|] eqn:Hinit; [|discriminate].
    intros H.
    destruct (gather_info_keeps _ _ H)
      as (_ & _ & _ & self & self' & Happ & Happ' & Htasks).
    unfold MainApplication_init in Hinit. destruct mainbg; [|discriminate].
    injection Hinit as <-. cbn in Happ. injection Happ as <-.
    intros self'' Hself''. rewrite Happ' in Hself''. injection Hself'' as <-.
    rewrite Htasks. constructor.
Qed.

(** In a settled process no event raises, and every event leaves it
    settled with the same tasks. *)
Lemma dispatch_settled p self e :
  settled p self ->
  exists p' self',
    dispatch p e = Some p'
    /\ settled p' self'
    /\ MainApplication.tasks self' = MainApplication.tasks self.
Proof.
  intros (Happ & Hen & Hw). unfold dispatch.
  destruct (quit p || negb (root_alive p)).
  { exists p, self. repeat split; assumption. }
  destruct e.
  - rewrite Happ, Hen. exists p, self. repeat split; assumption.
  - rewrite Happ, Hen. exists p, self. repeat split; assumption.
  - destruct (wdw_tasks p) as [w|] eqn:Hw0.
    + unfold end_tasks. rewrite Hw0, (Hw w eq_refl).
      unfold end_day.
      cbn [main_app set_wdw_tasks]. rewrite Happ.
      destruct (send_message_shape
                  (MainApplication.cnv_chat
                     (set_entry self false (MainApplication.entry_text self)
                        (MainApplication.return_bound self)))
                  "Another day, another dollar" true)
        as (b1 & ? & ? & ? & ? & _ & ->).
      match goal with
      | |- context [ChatCanvas.send_message ?c "Alright, I'll see ya tomorrow" true] =>
          destruct (send_message_shape c "Alright, I'll see ya tomorrow" true)
            as (b2 & ? & ? & ? & ? & _ & ->)
      end.
      eexists. eexists. split; [reflexivity|].
      split.
      { split; [reflexivity|]. split; [reflexivity|].
        intros w' Hw'. discriminate Hw'. }
      reflexivity.
    + exists p, self. split; [reflexivity|]. split; [|reflexivity].
      split; [exact Happ|]. split; [exact Hen|].
      intros w' Hw'. rewrite Hw0 in Hw'. exact (Hw w' Hw').
  - rewrite Happ.
    destruct (existsb is_button _).
    + exists (exit p), self. split; [reflexivity|]. split; [|reflexivity].
      unfold exit. destruct (data_json p); repeat split; assumption.
    + exists p, self. repeat split; assumption.
  - destruct (wdw_tasks p) as [w|] eqn:Hw0.
    + eexists. exists self. split; [reflexivity|]. split; [|reflexivity].
      destruct (TaskWindow.destroy_bound w); unfold kill_root;
        cbn [andb root_alive set_wdw_tasks];
        try destruct (root_alive p);
        (split; [exact Happ|split; [exact Hen|intros w' Hw'; discriminate Hw']]).
    + exists p, self. split; [reflexivity|]. split; [|reflexivity].
      split; [exact Happ|]. split; [exact Hen|].
      intros w' Hw'. rewrite Hw0 in Hw'. exact (Hw w' Hw').
Qed.

Lemma mainloop_settled events : forall p self,
  settled p self ->
  exists p' self',
    mainloop p events = Some p'
    /\ settled p' self'
    /\ MainApplication.tasks self' = MainApplication.tasks self.
Proof.
  induction events as [|e events IH]; intros p self Hs; simpl.
  - exists p, self. auto.
  - destruct (dispatch_settled p self e Hs) as (p1 & self1 & -> & Hs1 & Ht1).
    destruct (IH p1 self1 Hs1) as (p' & self' & Hrun & Hs' & Ht').
    exists p', self'. rewrite Hrun, Ht', Ht1. auto.
Qed.

End Tasks.

(** X8: on every launch and after every sequence of events, no task of
    the application is the empty string: the handler of Return appends
    the entry only when it is not empty. *)
Theorem no_task_is_empty :
  forall (P : Tk.Platform) (data_file : option string) (mainbg : bool)
         (events : list event) (p : process) (self : MainApplication.t),
    (p0 <- main data_file mainbg ;; mainloop p0 events) = Some p ->
    main_app p = Some self ->
    Forall (fun task => task <> EmptyString) (MainApplication.tasks self).
Proof.
  intros P data_file mainbg events p self Hrun Happ.
  destruct (main data_file mainbg) as [p0|] eqn:Hmain; [|discriminate].
  exact (mainloop_no_empty_task events p0 p
           (main_no_empty_task _ _ _ Hmain) Hrun self Happ).
Qed.

Lemma no_task_is_empty_witness :
  exists p self,
    (p0 <- main (P := Demo.platform) None true ;;
     mainloop (P := Demo.platform) p0
       (submit "Buy milk" ++ submit EmptyString ++ submit "Walk dog"))
    = Some p
    /\ main_app p = Some self
    /\ Forall (fun task => task <> EmptyString) (MainApplication.tasks self).
Proof.
  destruct (p0 <- main (P := Demo.platform) None true ;;
            mainloop (P := Demo.platform) p0
              (submit "Buy milk" ++ submit EmptyString ++ submit "Walk dog"))
    as [p|] eqn:Hrun.
  - destruct (main_app p) as [self|] eqn:Happ.
    + exists p, self. split; [reflexivity|]. split; [exact Happ|].
      exact (no_task_is_empty Demo.platform None true
               (submit "Buy milk" ++ submit EmptyString ++ submit "Walk dog")
               p self Hrun Happ).
    + exfalso. vm_compute in Hrun. injection Hrun as <-. discriminate Happ.
  - exfalso. vm_compute in Hrun. discriminate Hrun.
Defined.

(** X9: once the entry is disabled (and an open checklist, if any,
    belongs to the application) no sequence of events raises, re-enables
    the entry or changes the task list: a launch collects tasks once. *)
Theorem a_launch_collects_tasks_once :
  forall (P : Tk.Platform) (p : process) (self : MainApplication.t)
         (events : list event),
    settled p self ->
    exists p' self',
      mainloop p events = Some p'
      /\ main_app p' = Some self'
      /\ MainApplication.entry_enabled self' = false
      /\ MainApplication.tasks self' = MainApplication.tasks self.
Proof.
  intros P p self events Hs.
  destruct (mainloop_settled events p self Hs)
    as (p' & self' & Hrun & (Happ & Hen & _) & Htasks).
  exists p', self'. auto.
Qed.

Lemma a_launch_collects_tasks_once_witness :
  settled Demo.checking Demo.finished
  /\ exists p' self',
       mainloop (P := Demo.platform) Demo.checking
         (submit "Walk dog" ++ [ClickTasksFinished] ++ submit "Walk dog")
       = Some p'
       /\ main_app p' = Some self'
       /\ MainApplication.entry_enabled self' = false
       /\ MainApplication.tasks self' = ["Buy milk"].
Proof.
  assert (Hs : settled Demo.checking Demo.finished).
  { split; [reflexivity|]. split; [reflexivity|].
    intros w Hw. injection Hw as <-. reflexivity. }
  split; [exact Hs|].
  exact (a_launch_collects_tasks_once Demo.platform Demo.checking
           Demo.finished
           (submit "Walk dog" ++ [ClickTasksFinished] ++ submit "Walk dog") Hs).
Defined.

(** X10: closing the checklist window otherwise than by its button
    destroys the root window, whether or not a MainApplication exists:
    [mainloop] ends, no later event has any effect, and the file stays
    for the next launch. *)
Theorem closing_the_checklist_ends_the_run :
  forall (P : Tk.Platform) (p : process) (w : TaskWindow.t)
         (events : list event),
    wdw_tasks p = Some w ->
    TaskWindow.destroy_bound w = true ->
    quit p = false ->
    root_alive p = true ->
    exists p',
      dispatch p CloseTaskWindow = Some p'
      /\ root_alive p' = false
      /\ wdw_tasks p' = None
      /\ data_json p' = data_json p
      /\ main_app p' = main_app p
      /\ mainloop p' events = Some p'.
Proof.
  intros P p w events Hw Hbound Hquit Halive.
  unfold dispatch. rewrite Hquit, Halive, Hw, Hbound.
  cbn [orb negb]. unfold kill_root.
  cbn [andb root_alive set_wdw_tasks]. rewrite Halive.
  eexists. split; [reflexivity|].
  repeat split.
  apply mainloop_stopped. right. reflexivity.
Qed.

Lemma closing_the_checklist_ends_the_run_witness :
  wdw_tasks Demo.resumed = Some Demo.reopened
  /\ TaskWindow.destroy_bound Demo.reopened = true
  /\ quit Demo.resumed = false
  /\ root_alive Demo.resumed = true
  /\ exists p',
       dispatch (P := Demo.platform) Demo.resumed CloseTaskWindow = Some p'
       /\ root_alive p' = false
       /\ wdw_tasks p' = None
       /\ data_json p' = data_json Demo.resumed
       /\ main_app p' = main_app Demo.resumed
       /\ mainloop (P := Demo.platform) p' [ClickTasksFinished] = Some p'.
Proof.
  split; [reflexivity|]. split; [reflexivity|].
  split; [reflexivity|]. split; [reflexivity|].
  exact (closing_the_checklist_ends_the_run Demo.platform Demo.resumed
           Demo.reopened [ClickTasksFinished] eq_refl eq_refl eq_refl eq_refl).
Defined.

Section Endings.
Context {P : Tk.Platform}.

Lemma exit_btn_items c :
  Tk.items (ChatCanvas.cnv (ChatCanvas.exit_btn c))
  = Tk.items (ChatCanvas.cnv c)
    ++ [(Tk.next_id (ChatCanvas.cnv c),
         Tk.Window 190 600 (Tk.Button "Exit Program"))].
Proof. destruct c as [[its nid sr yv] bs]. reflexivity. Qed.

(** The completion button on a process without a MainApplication. *)
Lemma end_tasks_resumed p w :
  wdw_tasks p = Some w -> TaskWindow.app w = false -> mainbg_png p = true ->
  quit p = false -> root_alive p = true ->
  exists c1 c2,
    ChatCanvas.send_message ChatCanvas.init "Another day, another dollar" true
    = Some c1
    /\ ChatCanvas.send_message c1 "Alright, I'll see ya tomorrow" true = Some c2
    /\ dispatch p ClickTasksFinished
       = Some {| data_json := data_json p;
                 mainbg_png := true;
                 root_wm := Shown;
                 root_alive := true;
                 quit := false;
                 main_app :=
                   Some {| MainApplication.tasks := [];
                           MainApplication.cnv_chat := ChatCanvas.exit_btn c2;
                           MainApplication.entry_enabled := false;
                           MainApplication.entry_text := EmptyString;
                           MainApplication.return_bound := true |};
                 wdw_tasks := None |}.
Proof.
  intros Hw Happ Hbg Hquit Halive.
  destruct (send_message_spec ChatCanvas.init
              "Another day, another dollar" true fresh_init) as [r1 H1].
  pose proof (send_message_fresh _ _ _ _ fresh_init H1) as Hf1.
  match type of H1 with _ = Some ?a => set (c1 := a) in * end.
  destruct (send_message_spec c1 "Alright, I'll see ya tomorrow" true Hf1)
    as [r2 H2].
  match type of H2 with _ = Some ?a => set (c2 := a) in * end.
  exists c1, c2. split; [exact H1|]. split; [exact H2|].
  destruct p as [dj bg wm alive q app wdw].
  cbn in Hw, Hbg, Hquit, Halive. subst wdw bg q alive.
  destruct w as [tl wapp lbl db]. cbn in Happ. subst wapp.
  unfold dispatch, end_tasks, MainApplication_init, end_day.
  cbn [quit root_alive wdw_tasks orb negb TaskWindow.app set_wdw_tasks
         main_app set_root_wm set_entry set_cnv_chat set_main_app
         MainApplication.cnv_chat data_json mainbg_png root_wm
         MainApplication.tasks MainApplication.entry_text
         MainApplication.return_bound MainApplication.entry_enabled
         TaskWindow.task_list TaskWindow.labels].
  rewrite H1, H2. reflexivity.
Qed.

End Endings.

(** X11: on a resumed launch the completion button constructs the
    MainApplication only then: its task list is empty, its entry is
    disabled, and its canvas shows the two farewells and the exit button
    under the handles 1 to 5; the root window is shown again and the file
    is left as it is. *)
Theorem completion_on_a_resumed_launch :
  forall (P : Tk.Platform) (p : process) (w : TaskWindow.t),
    wdw_tasks p = Some w ->
    TaskWindow.app w = false ->
    mainbg_png p = true ->
    quit p = false ->
    root_alive p = true ->
    exists p' self',
      dispatch p ClickTasksFinished = Some p'
      /\ main_app p' = Some self'
      /\ MainApplication.tasks self' = []
      /\ MainApplication.entry_enabled self' = false
      /\ transcript (MainApplication.cnv_chat self')
         = [(true, Some (Tk.textwrap_fill "Another day, another dollar" 20));
            (true, Some (Tk.textwrap_fill "Alright, I'll see ya tomorrow" 20))]
      /\ map fst (Tk.items (ChatCanvas.cnv (MainApplication.cnv_chat self')))
         = [1; 2; 3; 4; 5]
      /\ has_button self' = true
      /\ wdw_tasks p' = None
      /\ root_wm p' = Shown
      /\ data_json p' = data_json p.
Proof.
  intros P p w Hw Happ Hbg Hquit Halive.
  destruct (end_tasks_resumed p w Hw Happ Hbg Hquit Halive)
    as (c1 & c2 & H1 & H2 & Hrun).
  pose proof (send_message_fresh _ _ _ _ fresh_init H1) as Hf1.
  destruct (send_message_handles _ _ _ _ fresh_init H1) as [Hids1 Hnext1].
  destruct (send_message_handles _ _ _ _ Hf1 H2) as [Hids2 Hnext2].
  eexists. eexists. split; [exact Hrun|].
  split; [reflexivity|]. split; [reflexivity|]. split; [reflexivity|].
  cbv beta iota delta [MainApplication.cnv_chat has_button].
  split.
  { rewrite transcript_exit_btn, (transcript_send _ _ _ _ Hf1 H2),
      (transcript_send _ _ _ _ fresh_init H1). reflexivity. }
  split.
  { rewrite exit_btn_items, map_app, Hids2, Hids1, Hnext2, Hnext1.
    reflexivity. }
  split.
  { rewrite exit_btn_items, existsb_app. simpl existsb.
    apply orb_true_r. }
  repeat split.
Qed.

Lemma completion_on_a_resumed_launch_witness :
  wdw_tasks Demo.resumed = Some Demo.reopened
  /\ TaskWindow.app Demo.reopened = false
  /\ mainbg_png Demo.resumed = true
  /\ quit Demo.resumed = false
  /\ root_alive Demo.resumed = true
  /\ exists p' self',
       dispatch (P := Demo.platform) Demo.resumed ClickTasksFinished = Some p'
       /\ main_app p' = Some self'
       /\ MainApplication.tasks self' = []
       /\ has_button self' = true
       /\ data_json p' = Some (Json.dump ["Buy milk"]).
Proof.
  split; [reflexivity|]. split; [reflexivity|]. split; [reflexivity|].
  split; [reflexivity|]. split; [reflexivity|].
  destruct (completion_on_a_resumed_launch Demo.platform Demo.resumed
              Demo.reopened eq_refl eq_refl eq_refl eq_refl eq_refl)
    as (p' & self' & Hrun & Happ & Htasks & _ & _ & _ & Hbtn & _ & _ & Hdata).
  exists p', self'. auto.
Defined.

(** X12: without [rec/mainbg.png] a fresh launch raises before any
    window is filled, whereas a launch on an existing file opens the
    checklist all the same; there the completion button raises, because
    it has to construct the MainApplication. *)
Theorem a_missing_image_stops_the_chat_only :
  forall (P : Tk.Platform) (data_file : string) (tasks : list string),
    Json.load data_file = Some tasks ->
    main None false = None
    /\ exists p,
         main (Some data_file) false = Some p
         /\ option_map TaskWindow.task_list (wdw_tasks p) = Some tasks
         /\ dispatch p ClickTasksFinished = None
         /\ exists p',
              dispatch p CloseTaskWindow = Some p'
              /\ root_alive p' = false.
Proof.
  intros P data_file tasks Hload.
  split; [reflexivity|].
  unfold main. rewrite Hload.
  eexists. split; [reflexivity|]. split; [reflexivity|].
  split; [reflexivity|].
  eexists. split; reflexivity.
Qed.

Lemma a_missing_image_stops_the_chat_only_witness :
  Json.load (Json.dump ["Buy milk"]) = Some ["Buy milk"]
  /\ main (P := Demo.platform) None false = None
  /\ exists p,
       main (P := Demo.platform) (Some (Json.dump ["Buy milk"])) false = Some p
       /\ dispatch (P := Demo.platform) p ClickTasksFinished = None.
Proof.
  assert (Hload : Json.load (Json.dump ["Buy milk"]) = Some ["Buy milk"])
    by reflexivity.
  split; [exact Hload|].
  destruct (a_missing_image_stops_the_chat_only Demo.platform
              (Json.dump ["Buy milk"]) ["Buy milk"] Hload)
    as (Hfresh & p & Hmain & _ & Hraise & _).
  split; [exact Hfresh|]. exists p. auto.
Defined.

(** X13: the exit button removes [rec/data.json] whether or not it is
    there and ends [mainloop], after which no event has any effect; the
    next launch on that disk starts a new capture with no task and no
    checklist. *)
Theorem exit_then_a_fresh_session :
  forall (P : Tk.Platform) (p : process) (self : MainApplication.t)
         (events : list event),
    main_app p = Some self ->
    has_button self = true ->
    quit p = false ->
    root_alive p = true ->
    exists p',
      dispatch p ClickExit = Some p'
      /\ data_json p' = None
      /\ quit p' = true
      /\ main_app p' = Some self
      /\ mainloop p' events = Some p'
      /\ exists q self',
           main (data_json p') true = Some q
           /\ capturing q self'
           /\ MainApplication.tasks self' = []
           /\ wdw_tasks q = None
           /\ data_json q = None.
Proof.
  intros P p self events Happ Hbtn Hquit Halive.
  unfold dispatch. rewrite Hquit, Halive, Happ.
  cbn [orb negb]. unfold has_button in Hbtn. rewrite Hbtn.
  exists (exit p).
  assert (Hdata : data_json (exit p) = None).
  { unfold exit. destruct (data_json p) eqn:Hd; [reflexivity|exact Hd]. }
  split; [reflexivity|]. split; [exact Hdata|].
  split; [reflexivity|].
  split; [unfold exit; destruct (data_json p); exact Happ|].
  split; [apply mainloop_stopped; left; reflexivity|].
  rewrite Hdata.
  destruct main_fresh
    as (q & self' & Hmain & Hc & Htasks & _ & _ & Hd & _ & Hwdw & _).
  exists q, self'. auto.
Qed.

Lemma exit_then_a_fresh_session_witness :
  main_app Demo.leaving = Some Demo.parting
  /\ has_button Demo.parting = true
  /\ quit Demo.leaving = false
  /\ root_alive Demo.leaving = true
  /\ exists p',
       dispatch (P := Demo.platform) Demo.leaving ClickExit = Some p'
       /\ data_json p' = None
       /\ quit p' = true
       /\ mainloop (P := Demo.platform) p' (submit "Walk dog") = Some p'.
Proof.
  split; [reflexivity|]. split; [reflexivity|].
  split; [reflexivity|]. split; [reflexivity|].
  destruct (exit_then_a_fresh_session Demo.platform Demo.leaving Demo.parting
              (submit "Walk dog") eq_refl eq_refl eq_refl eq_refl)
    as (p' & Hrun & Hdata & Hquit & _ & Hloop & _).
  exists p'. auto.
Defined.

(** ** Colours *)

Section Formats.

Lemma byte_cases (f : Z -> bool) :
  forallb f (map Z.of_nat (seq 0 256)) = true ->
  forall n, byte_range n -> f n = true.
Proof.
  intros H n Hn. rewrite forallb_forall in H. apply H.
  apply in_map_iff. exists (Z.to_nat n). unfold byte_range in Hn.
  split; [lia|]. apply in_seq. lia.
Qed.

(** One draw: two capital hexadecimal digits that read back as the draw. *)
Lemma format_02X_reads_back n :
  byte_range n ->
  exists hi lo,
    format_02X n = String hi (String lo EmptyString)
    /\ is_upper_hex hi = true
    /\ is_upper_hex lo = true
    /\ hex_pair hi lo = Some n.
Proof.
  intros Hn.
  exists (hex_upper (n / 16)), (hex_upper (n mod 16)).
  split; [reflexivity|].
  pose proof (byte_cases
                (fun n =>
                   is_upper_hex (hex_upper (n / 16))
                   && is_upper_hex (hex_upper (n mod 16))
                   && match hex_pair (hex_upper (n / 16)) (hex_upper (n mod 16)) with
                      | Some m => m =? n
                      | None => false
                      end)
                eq_refl n Hn) as H.
  cbv beta in H.
  apply andb_true_iff in H. destruct H as [H Hpair].
  apply andb_true_iff in H. destruct H as [Hhi Hlo].
  split; [exact Hhi|]. split; [exact Hlo|].
  destruct (hex_pair (hex_upper (n / 16)) (hex_upper (n mod 16))) as [m|];
    [|discriminate].
  apply Z.eqb_eq in Hpair. subst m. reflexivity.
Qed.

End Formats.

(** X14: whatever the three draws between 0 and 255 are, [rand_color]
    gives a number sign followed by exactly six capital hexadecimal
    digits, and the colour reads back as the three draws: different
    draws never give the same colour. *)
Theorem rand_color_is_a_colour :
  forall r g b : Z,
    byte_range r -> byte_range g -> byte_range b ->
    exists digits,
      rand_color r g b = String "#" digits
      /\ String.length digits = 6%nat
      /\ all_chars is_upper_hex digits = true
      /\ parse_color (rand_color r g b) = Some (r, g, b).
Proof.
  intros r g b Hr Hg Hb.
  destruct (format_02X_reads_back r Hr) as (r1 & r2 & Er & Hr1 & Hr2 & Pr).
  destruct (format_02X_reads_back g Hg) as (g1 & g2 & Eg & Hg1 & Hg2 & Pg).
  destruct (format_02X_reads_back b Hb) as (b1 & b2 & Eb & Hb1 & Hb2 & Pb).
  unfold rand_color. rewrite Er, Eg, Eb.
  eexists. split; [reflexivity|].
  cbn [append String.length all_chars parse_color].
  split; [reflexivity|].
  rewrite Hr1, Hr2, Hg1, Hg2, Hb1, Hb2, Pr, Pg, Pb.
  split; reflexivity.
Qed.

Lemma rand_color_is_a_colour_witness :
  byte_range 255 /\ byte_range 0 /\ byte_range 171
  /\ rand_color 255 0 171 = "#FF00AB"
  /\ parse_color (rand_color 255 0 171) = Some (255, 0, 171).
Proof.
  assert (H1 : byte_range 255) by (unfold byte_range; lia).
  assert (H2 : byte_range 0) by (unfold byte_range; lia).
  assert (H3 : byte_range 171) by (unfold byte_range; lia).
  split; [exact H1|]. split; [exact H2|]. split; [exact H3|].
  split; [reflexivity|].
  destruct (rand_color_is_a_colour 255 0 171 H1 H2 H3)
    as (digits & _ & _ & _ & Hparse).
  exact Hparse.
Defined.

Section Exits.
Context {P : Tk.Platform}.

Lemma dispatch_no_button p e p' :
  quit p = false ->
  (forall self, main_app p = Some self -> has_button self = false) ->
  is_completion e = false ->
  dispatch p e = Some p' ->
  quit p' = false
  /\ forall self, main_app p' = Some self -> has_button self = false.
Proof.
  intros Hq Hno He. unfold dispatch.
  destruct (quit p || negb (root_alive p)).
  { intros H. injection H as <-. auto. }
  destruct e; try discriminate He.
  - destruct (main_app p) as [self|] eqn:Happ in |- *;
      [|intros H; injection H as <-; auto].
    destruct (MainApplication.entry_enabled self);
      [|intros H; injection H as <-; auto].
    intros H. injection H as <-. split; [exact Hq|].
    intros self' Hself'. cbn in Hself'. injection Hself' as <-.
    exact (Hno self Happ).
  - destruct (main_app p) as [self|] eqn:Happ in |- *;
      [|intros H; injection H as <-; auto].
    destruct (MainApplication.entry_enabled self
              && MainApplication.return_bound self);
      [|intros H; injection H as <-; auto].
    unfold input_tasks. rewrite Happ.
    destruct (String.length (MainApplication.entry_text self) =? 0)%nat.
    + unfold create_list, refresh_cnv. rewrite Happ.
      cbn [main_app TaskWindow_init save_state set_data_json set_wdw_tasks
             set_main_app set_root_wm].
      rewrite Happ.
      cbn [main_app set_main_app set_root_wm].
      intros H. injection H as <-. split; [exact Hq|].
      intros self' Hself'. cbn in Hself'. injection Hself' as <-. reflexivity.
    + destruct (ChatCanvas.send_message _ _ _) as [c|] eqn:Hsend; [|discriminate].
      intros H. injection H as <-. split; [exact Hq|].
      intros self' Hself'. cbn in Hself'. injection Hself' as <-.
      unfold has_button. cbn [MainApplication.cnv_chat].
      rewrite (send_message_buttons _ _ _ _ Hsend).
      exact (Hno self Happ).
  - destruct (main_app p) as [self|] eqn:Happ in |- *;
      [|intros H; injection H as <-; auto].
    pose proof (Hno self Happ) as Hb. unfold has_button in Hb. rewrite Hb.
    intros H. injection H as <-. auto.
  - destruct (wdw_tasks p) as [w0|]; [|intros H; injection H as <-; auto].
    intros H. injection H as <-.
    destruct (TaskWindow.destroy_bound w0); [|split; assumption].
    unfold kill_root. cbn [andb root_alive set_wdw_tasks].
    destruct (root_alive p); split; assumption.
Qed.

Lemma mainloop_no_button events : forall p p',
  quit p = false ->
  (forall self, main_app p = Some self -> has_button self = false) ->
  forallb (fun e => negb (is_completion e)) events = true ->
  mainloop p events = Some p' ->
  quit p' = false
  /\ forall self, main_app p' = Some self -> has_button self = false.
Proof.
  induction events as [|e events IH]; intros p p' Hq Hno Hev; simpl.
  - intros H. injection H as <-. auto.
  - simpl in Hev. apply andb_true_iff in Hev. destruct Hev as [He Hev].
    apply negb_true_iff in He.
    destruct (dispatch p e) as [p1|] eqn:Hd; [|discriminate].
    destruct (dispatch_no_button p e p1 Hq Hno He Hd) as [Hq1 Hno1].
    apply IH; assumption.
Qed.

Lemma main_no_button data_file mainbg p :
  main data_file mainbg = Some p ->
  quit p = false
  /\ forall self, main_app p = Some self -> has_button self = false.
Proof.
  unfold main. destruct data_file as [f|].
  - destruct (Json.load f) as [tasks|]; [|discriminate].
    intros H. injection H as <-. split; [reflexivity|discriminate].
  - unfold MainApplication_init. destruct mainbg; [|discriminate].
    unfold gather_info.
    cbn [main_app set_main_app mainbg_png MainApplication.cnv_chat].
    match goal with
    | |- context [ChatCanvas.send_message ?c "Welcome back!" ?l] =>
        destruct (ChatCanvas.send_message c "Welcome back!" l) as [c1|] eqn:H1;
          [|discriminate]
    end.
    match goal with
    | |- context [ChatCanvas.send_message c1 ?m ?l] =>
        destruct (ChatCanvas.send_message c1 m l) as [c2|] eqn:H2;
          [|discriminate]
    end.
    intros H. injection H as <-. split; [reflexivity|].
    intros self Hself. cbn in Hself. injection Hself as <-.
    unfold has_button, set_entry, set_cnv_chat. cbn [MainApplication.cnv_chat].
    rewrite (send_message_buttons _ _ _ _ H2), (send_message_buttons _ _ _ _ H1).
    reflexivity.
Qed.

End Exits.

(** X16: on every launch, as long as the completion button has not been
    pressed, no exit button is on the canvas and [quit] has not been
    called, so that a click where the exit button would be does nothing:
    the only way to [exit], and to the removal of the file, goes through
    the completion of a checklist. *)
Theorem no_exit_before_completion :
  forall (P : Tk.Platform) (data_file : option string) (mainbg : bool)
         (events : list event) (p : process),
    forallb (fun e => negb (is_completion e)) events = true ->
    (p0 <- main data_file mainbg ;; mainloop p0 events) = Some p ->
    quit p = false
    /\ (forall self, main_app p = Some self -> has_button self = false)
    /\ dispatch p ClickExit = Some p.
Proof.
  intros P data_file mainbg events p Hev Hrun.
  destruct (main data_file mainbg) as [p0|] eqn:Hmain; [|discriminate].
  destruct (main_no_button _ _ _ Hmain) as [Hq0 Hno0].
  destruct (mainloop_no_button events p0 p Hq0 Hno0 Hev Hrun) as [Hq Hno].
  split; [exact Hq|]. split; [exact Hno|].
  unfold dispatch.
  destruct (quit p || negb (root_alive p)); [reflexivity|].
  destruct (main_app p) as [self|] eqn:Happ; [|reflexivity].
  pose proof (Hno self eq_refl) as Hb. unfold has_button in Hb.
  rewrite Hb. reflexivity.
Qed.

Lemma no_exit_before_completion_witness :
  exists p,
    forallb (fun e => negb (is_completion e))
      (submit "Buy milk" ++ [ClickExit] ++ submit EmptyString ++ [ClickExit])
    = true
    /\ (p0 <- main (P := Demo.platform) None true ;;
        mainloop (P := Demo.platform) p0
          (submit "Buy milk" ++ [ClickExit] ++ submit EmptyString ++ [ClickExit]))
       = Some p
    /\ quit p = false
    /\ data_json p = Some (Json.dump ["Buy milk"]).
Proof.
  destruct (p0 <- main (P := Demo.platform) None true ;;
            mainloop (P := Demo.platform) p0
              (submit "Buy milk" ++ [ClickExit] ++ submit EmptyString ++ [ClickExit]))
    as [p|] eqn:Hrun.
  - exists p. split; [reflexivity|]. split; [reflexivity|].
    split.
    + exact (proj1 (no_exit_before_completion Demo.platform None true
                      (submit "Buy milk" ++ [ClickExit] ++ submit EmptyString
                       ++ [ClickExit]) p eq_refl Hrun)).
    + vm_compute in Hrun. injection Hrun as <-. reflexivity.
  - exfalso. vm_compute in Hrun. discriminate Hrun.
Defined.
